(** * audio-service_OAuth: the token service, the OAuth bridge and the
      audio file service, embedded from [src/app] and checked against the
      specification.

    Conventions of the embedding.
    - A Python function that may raise returns a [result]; the exception
      classes the code raises or catches are the constructors of [exn].
    - Clock readings are explicit arguments, in whole seconds since the
      epoch: [utcnow] is [datetime.utcnow()], and [token_expires] is the
      value of [int((datetime.now() + timedelta(days=30)).timestamp())],
      which depends on the local time zone as well as on the clock.
    - The configuration is the object [app/core/config.py] builds: the
      code reads it by attribute access, and a name the class does not
      declare is an [AttributeError].
    - python-jose is a parameter ([Jose]); httpx, requests, the
      SQLAlchemy session, pydantic's [from_orm], [pathlib] and [os] are
      modelled by small executable definitions placed in front of the
      function that uses them. *)

From stdpp Require Import base option list strings pretty gmap.
From Stdlib Require Import ZArith Lia Ascii String.

Local Open Scope string_scope.
Local Open Scope Z_scope.

(** ** Python values, exceptions, results *)

(** The values that occur in token claims and provider profiles. A
    [VDatetime] is a naive UTC [datetime]; JSON arrays and nested objects
    do not occur in the data the service handles and are not modelled. *)
Inductive value :=
| VNone
| VBool (b : bool)
| VInt (n : Z)
| VStr (s : string)
| VDatetime (t : Z).

#[global] Instance value_eq_dec : EqDecision value.
Proof. solve_decision. Defined.

Abbreviation dict := (gmap string value).

(** Python truthiness, as used by [or] and [if not x]. *)
Definition truthy (v : value) : bool :=
  match v with
  | VNone => false
  | VBool b => b
  | VInt n => negb (n =? 0)
  | VStr s => negb (String.eqb s EmptyString)
  | VDatetime _ => true
  end.

Inductive exn :=
| HTTPException (status_code : Z) (detail : string)
(* jose.exceptions *)
| JWSError (msg : string)
| JWTError (msg : string)
| ExpiredSignatureError (msg : string)
| JWTClaimsError (msg : string)
(* httpx *)
| HTTPStatusError (response_text : string)
| RequestError (msg : string)
(* requests *)
| RequestException (msg : string)
(* sqlalchemy *)
| IntegrityError (msg : string)
| DBAPIError (msg : string)
| InvalidRequestError (msg : string)
| MultipleResultsFound
(* pydantic *)
| ValidationError (msg : string)
(* builtins *)
| OSError (msg : string)
| TypeError (msg : string)
| AttributeError (msg : string)
| KeyError (key : string)
| ValueError (msg : string).

#[global] Instance exn_eq_dec : EqDecision exn.
Proof. solve_decision. Defined.

(** [str(exc)] *)
Definition str_exn (e : exn) : string :=
  match e with
  | HTTPException _ d => d
  | JWSError m | JWTError m | ExpiredSignatureError m | JWTClaimsError m => m
  | HTTPStatusError t => t
  | RequestError m | RequestException m => m
  | IntegrityError m | DBAPIError m | InvalidRequestError m => m
  | MultipleResultsFound => "Multiple rows were found when one or none was required"
  | ValidationError m => m
  | OSError m | TypeError m | AttributeError m | ValueError m => m
  | KeyError k => "'" ++ k ++ "'"
  end.

(** [except JWTError]: the class and its two subclasses. *)
Definition is_JWTError (e : exn) : bool :=
  match e with
  | JWTError _ | ExpiredSignatureError _ | JWTClaimsError _ => true
  | _ => false
  end.

Definition is_ValidationError (e : exn) : bool :=
  match e with ValidationError _ => true | _ => false end.

Definition is_HTTPException (e : exn) : bool :=
  match e with HTTPException _ _ => true | _ => false end.

Inductive result (A : Type) :=
| Ok (a : A)
| Raise (e : exn).
Arguments Ok {A} a.
Arguments Raise {A} e.

Definition bind {A B} (r : result A) (k : A -> result B) : result B :=
  match r with
  | Ok a => k a
  | Raise e => Raise e
  end.

Declare Scope py_scope.
Delimit Scope py_scope with py.
Notation "x <- c1 ;; c2" := (bind c1 (fun x => c2))
  (at level 100, c1 at next level, right associativity) : py_scope.
Notation "c1 ;;; c2" := (bind c1 (fun _ => c2))
  (at level 100, right associativity) : py_scope.

(** HTTP status constants of [fastapi.status]. *)
Definition HTTP_400_BAD_REQUEST : Z := 400.
Definition HTTP_401_UNAUTHORIZED : Z := 401.
Definition HTTP_409_CONFLICT : Z := 409.
Definition HTTP_413_REQUEST_ENTITY_TOO_LARGE : Z := 413.
Definition HTTP_500_INTERNAL_SERVER_ERROR : Z := 500.
Definition HTTP_503_SERVICE_UNAVAILABLE : Z := 503.


(** Primary keys; the services receive ids that parse as UUIDs. *)
Definition UUID := N.

(** ** Objects read by attribute: the configuration, a loaded row *)

(** The objects whose attributes the code reads, and the values those
    attributes hold. *)
#[warnings="-register-all"]
Inductive pyobj :=
| PNone
| PBool (b : bool)
| PInt (n : Z)
| PStr (s : string)
| PSecretStr (s : string)
| PList (l : list string)
| PUuid (u : UUID)
| PObject (class_name : string) (attributes : list (string * pyobj)).

Definition type_name (o : pyobj) : string :=
  match o with
  | PNone => "NoneType"
  | PBool _ => "bool"
  | PInt _ => "int"
  | PStr _ => "str"
  | PSecretStr _ => "SecretStr"
  | PList _ => "list"
  | PUuid _ => "UUID"
  | PObject class_name _ => class_name
  end.

Fixpoint assoc {A} (name : string) (l : list (string * A)) : option A :=
  match l with
  | [] => None
  | (k, v) :: rest => if String.eqb k name then Some v else assoc name rest
  end.

(** [sep.join(l)] *)
Fixpoint join (sep : string) (l : list string) : string :=
  match l with
  | [] => EmptyString
  | [x] => x
  | x :: rest => x ++ sep ++ join sep rest
  end.

(** [o.name] for a data attribute: the fields of a pydantic model and
    the mapped columns of a row are its data attributes, and a name
    that is none of them raises. *)
Definition getattr (o : pyobj) (name : string) : result pyobj :=
  let missing :=
    Raise (AttributeError ("'" ++ type_name o ++ "' object has no attribute '"
                           ++ name ++ "'")) in
  match o with
  | PObject _ attributes =>
      match assoc name attributes with
      | Some v => Ok v
      | None => missing
      end
  | _ => missing
  end.

(** ** Configuration ([app/core/config.py])

    [settings] is an instance of [Settings], whose fields are [app],
    [database], [auth] and [yandex]. The services read [auth] only;
    the other three are whatever objects the environment made them.
    [AudioSettings] is declared in the file but is the type of no field
    of [Settings]. A field's alias ([SECRET_KEY] for [secret_key]) names
    the environment variable, not an attribute. *)

Module AuthSettings.
Record t := {
  secret_key : string;
  algorithm : string;
  access_token_expire_minutes : Z;
  refresh_token_expire_days : Z
}.

Definition object (a : t) : pyobj :=
  PObject "AuthSettings"
    [("secret_key", PSecretStr (secret_key a));
     ("algorithm", PStr (algorithm a));
     ("access_token_expire_minutes", PInt (access_token_expire_minutes a));
     ("refresh_token_expire_days", PInt (refresh_token_expire_days a))].
End AuthSettings.

Module Settings.
Record t := {
  app : pyobj;
  database : pyobj;
  auth : AuthSettings.t;
  yandex : pyobj
}.

Definition object (s : t) : pyobj :=
  PObject "Settings"
    [("app", app s);
     ("database", database s);
     ("auth", AuthSettings.object (auth s));
     ("yandex", yandex s)].
End Settings.

(** ** python-jose

    [jwt.encode(claims, key, algorithm=algorithm)] and
    [jwt.decode(token, key, algorithms=algorithms, options=options)] at
    the clock reading [utcnow]. What the library returns or raises is
    left open. *)
Class Jose := {
  jwt_encode : dict -> pyobj -> pyobj -> result string;
  jwt_decode : string -> pyobj -> list pyobj -> gmap string (list string) -> Z
               -> result dict
}.

(** ** [AuthService.create_access_token], [AuthService.verify_token]
       ([app/services/auth.py]) *)

Module AuthToken.

(** [timedelta(minutes=o)], in seconds. *)
Definition timedelta_minutes (o : pyobj) : result Z :=
  match o with
  | PInt n => Ok (60 * n)
  | PBool b => Ok (if b then 60 else 0)
  | _ => Raise (TypeError ("unsupported type for timedelta minutes component: "
                           ++ type_name o))
  end.

Definition create_access_token `{Jose} (settings : Settings.t) (utcnow : Z)
    (data : dict) : result string :=
  let settings := Settings.object settings in
  let attempt :=
    (let to_encode := data in
     minutes <- getattr settings "ACCESS_TOKEN_EXPIRE_MINUTES" ;;
     delta <- timedelta_minutes minutes ;;
     let expire := utcnow + delta in
     let to_encode := <["exp" := VDatetime expire]> to_encode in
     key <- getattr settings "SECRET_KEY" ;;
     algorithm <- getattr settings "ALGORITHM" ;;
     jwt_encode to_encode key algorithm)%py in
  match attempt with
  | Ok t => Ok t
  | Raise exc =>
      if is_JWTError exc || is_ValidationError exc then
        Raise (HTTPException HTTP_500_INTERNAL_SERVER_ERROR
                 ("Token creation failed: " ++ str_exn exc))
      else Raise exc
  end.

(** The options literal of [verify_token]: [{"require": ["exp", "sub"]}]. *)
Definition verify_options : gmap string (list string) :=
  {[ "require" := ["exp"; "sub"] ]}.

Definition verify_token `{Jose} (settings : Settings.t) (utcnow : Z)
    (token : string) : result dict :=
  let settings := Settings.object settings in
  let attempt :=
    (key <- getattr settings "SECRET_KEY" ;;
     auth <- getattr settings "auth" ;;
     algorithm <- getattr auth "ALGORITHM" ;;
     jwt_decode token key [algorithm] verify_options utcnow)%py in
  match attempt with
  | Ok payload => Ok payload
  | Raise (ExpiredSignatureError _) =>
      Raise (HTTPException HTTP_401_UNAUTHORIZED "Token has expired")
  | Raise (JWTClaimsError _) =>
      Raise (HTTPException HTTP_401_UNAUTHORIZED "Invalid token claims")
  | Raise (JWTError _) =>
      Raise (HTTPException HTTP_401_UNAUTHORIZED "Invalid token")
  | Raise exc => Raise exc
  end.

End AuthToken.

(** ** The persisted rows ([app/models]) *)

Module User.
Record t := {
  id : UUID;
  email : string;
  name : option string;
  yandex_id : string;
  is_active : bool;
  is_superuser : bool;
  access_token : option string;
  refresh_token : option string;
  token_expires : option Z
}.

#[global] Instance eq_dec : EqDecision t.
Proof. solve_decision. Defined.

Definition set_access_token (v : string) (u : t) : t :=
  {| id := id u; email := email u; name := name u; yandex_id := yandex_id u;
     is_active := is_active u; is_superuser := is_superuser u;
     access_token := Some v; refresh_token := refresh_token u;
     token_expires := token_expires u |}.

Definition set_token_expires (v : Z) (u : t) : t :=
  {| id := id u; email := email u; name := name u; yandex_id := yandex_id u;
     is_active := is_active u; is_superuser := is_superuser u;
     access_token := access_token u; refresh_token := refresh_token u;
     token_expires := Some v |}.

Definition set_yandex_id (v : string) (u : t) : t :=
  {| id := id u; email := email u; name := name u; yandex_id := v;
     is_active := is_active u; is_superuser := is_superuser u;
     access_token := access_token u; refresh_token := refresh_token u;
     token_expires := token_expires u |}.

Definition set_name (v : string) (u : t) : t :=
  {| id := id u; email := email u; name := Some v; yandex_id := yandex_id u;
     is_active := is_active u; is_superuser := is_superuser u;
     access_token := access_token u; refresh_token := refresh_token u;
     token_expires := token_expires u |}.
End User.

(** The mapped columns of [app/models/audio.py]; all of them are
    [nullable=False]. *)
Module AudioFile.
Record t := {
  id : UUID;
  user_id : UUID;
  filename : string;
  original_filename : string;
  file_path : string
}.

#[global] Instance eq_dec : EqDecision t.
Proof. solve_decision. Defined.

Definition columns : list string :=
  ["id"; "user_id"; "filename"; "original_filename"; "file_path"].

(** The data attributes of a loaded row. *)
Definition attributes (f : t) : list (string * pyobj) :=
  [("id", PUuid (id f));
   ("user_id", PUuid (user_id f));
   ("filename", PStr (filename f));
   ("original_filename", PStr (original_filename f));
   ("file_path", PStr (file_path f))].

(** [AudioFile(name=value, ...)]: the declarative constructor assigns the
    keywords that name a mapped attribute and refuses any other. The
    new object is the assignments made. *)
Definition init (kwargs : list (string * pyobj)) : result (list (string * pyobj)) :=
  match List.filter (fun kw => negb (bool_decide (kw.1 ∈ columns))) kwargs with
  | (k, _) :: _ =>
      Raise (TypeError ("'" ++ k ++ "' is an invalid keyword argument for AudioFile"))
  | [] => Ok kwargs
  end.

Definition null_value {A} (column : string) : result A :=
  Raise (IntegrityError ("null value in column '" ++ column
                         ++ "' violates not-null constraint")).

Definition invalid_input {A} (column : string) : result A :=
  Raise (DBAPIError ("invalid input for query argument: " ++ column)).

Definition bind_uuid (assigned : list (string * pyobj)) (column : string) : result UUID :=
  match assoc column assigned with
  | Some (PUuid u) => Ok u
  | None | Some PNone => null_value column
  | Some _ => invalid_input column
  end.

Definition bind_str (assigned : list (string * pyobj)) (column : string) : result string :=
  match assoc column assigned with
  | Some (PStr s) => Ok s
  | None | Some PNone => null_value column
  | Some _ => invalid_input column
  end.

(** The row the INSERT of a new object makes; [default_id] is the value
    [uuid.uuid4] yields for the primary key when none was assigned. *)
Definition insert (default_id : UUID) (assigned : list (string * pyobj)) : result t :=
  (id <- match assoc "id" assigned with
         | None | Some PNone => Ok default_id
         | Some (PUuid u) => Ok u
         | Some _ => invalid_input "id"
         end ;;
   user_id <- bind_uuid assigned "user_id" ;;
   filename <- bind_str assigned "filename" ;;
   original_filename <- bind_str assigned "original_filename" ;;
   file_path <- bind_str assigned "file_path" ;;
   Ok {| id := id; user_id := user_id; filename := filename;
         original_filename := original_filename; file_path := file_path |})%py.
End AudioFile.

(** The response schema of [app/schemas/audio.py]. It has
    [from_attributes] set, and none of its fields has a default:
    [from_orm] reads every field as an attribute of the object, and
    one that the object lacks is reported as missing. A [datetime] is
    held as its timestamp. *)
Module AudioFileInDB.
Record t := {
  original_filename : string;
  file_size : Z;
  content_type : string;
  id : UUID;
  user_id : UUID;
  file_path : string;
  created_at : Z;
  updated_at : option Z
}.

Definition fields : list string :=
  ["original_filename"; "file_size"; "content_type"; "id"; "user_id"; "file_path";
   "created_at"; "updated_at"].

Definition invalid {A} (field expected : string) : result A :=
  Raise (ValidationError (field ++ ": Input should be a valid " ++ expected)).

Definition field_str (attributes : list (string * pyobj)) (field : string) : result string :=
  match assoc field attributes with
  | Some (PStr s) => Ok s
  | _ => invalid field "string"
  end.

Definition field_int (attributes : list (string * pyobj)) (field : string) : result Z :=
  match assoc field attributes with
  | Some (PInt n) => Ok n
  | _ => invalid field "integer"
  end.

Definition field_uuid (attributes : list (string * pyobj)) (field : string) : result UUID :=
  match assoc field attributes with
  | Some (PUuid u) => Ok u
  | _ => invalid field "UUID"
  end.

Definition field_optional_datetime (attributes : list (string * pyobj)) (field : string)
  : result (option Z) :=
  match assoc field attributes with
  | Some PNone => Ok None
  | Some (PInt n) => Ok (Some n)
  | _ => invalid field "datetime"
  end.

(** [model_validate(obj, from_attributes=True)] *)
Definition model_validate (attributes : list (string * pyobj)) : result t :=
  match List.filter (fun field => match assoc field attributes with
                                  | Some _ => false
                                  | None => true
                                  end) fields with
  | [] =>
      (original_filename <- field_str attributes "original_filename" ;;
       file_size <- field_int attributes "file_size" ;;
       content_type <- field_str attributes "content_type" ;;
       id <- field_uuid attributes "id" ;;
       user_id <- field_uuid attributes "user_id" ;;
       file_path <- field_str attributes "file_path" ;;
       created_at <- field_int attributes "created_at" ;;
       updated_at <- field_optional_datetime attributes "updated_at" ;;
       Ok {| original_filename := original_filename; file_size := file_size;
             content_type := content_type; id := id; user_id := user_id;
             file_path := file_path; created_at := created_at;
             updated_at := updated_at |})%py
  | missing => Raise (ValidationError (join ", " missing ++ ": Field required"))
  end.

Definition from_orm (f : AudioFile.t) : result t :=
  model_validate (AudioFile.attributes f).
End AudioFileInDB.

(** ** The world the services act on: the database behind the session,
       the storage directory and the provider *)

Record Database := {
  users : list User.t;
  audio_files : list AudioFile.t
}.

(** The declared constraints: primary keys, [unique=True] on [email] and
    [yandex_id], and the foreign key of [audio_files.user_id]. *)
Definition constraints_ok (d : Database) : bool :=
  bool_decide (NoDup (User.id <$> users d))
  && bool_decide (NoDup (User.email <$> users d))
  && bool_decide (NoDup (User.yandex_id <$> users d))
  && bool_decide (NoDup (AudioFile.id <$> audio_files d))
  && bool_decide (Forall (fun f => AudioFile.user_id f ∈ (User.id <$> users d))
                         (audio_files d)).

(** The storage directory: the files with their bytes, and the paths the
    process is not permitted to remove. *)
Record FileSystem := {
  files : gmap string (list Byte.byte);
  undeletable : gset string
}.

(** An outbound HTTP request; [timeout] is in seconds, [None] when the
    call passes none. *)
Record Request := {
  method : string;
  url : string;
  params : list (string * string);
  headers : list (string * string);
  data : list (string * string);
  timeout : option Z
}.

#[global] Instance Request_eq_dec : EqDecision Request.
Proof. solve_decision. Defined.

(** What the provider does with a request: the network fails, or a
    response arrives; [json] is [None] when the body does not decode to
    a JSON object. *)
Inductive Reply :=
| NetworkFailure (msg : string)
| Response (status_code : Z) (text : string) (json : option dict).

Inductive Event :=
| EvRequest (r : Request)
| EvExecute
| EvAdd
| EvDelete
| EvCommit
| EvRollback
| EvRefresh
| EvWrite (path : string)
| EvUnlink (path : string)
| EvPrint (msg : string).

#[global] Instance Event_eq_dec : EqDecision Event.
Proof. solve_decision. Defined.

(** [committed] is the database as of the last commit, [working] the
    session's view with its pending changes, [trace] the effects in the
    order they happened. *)
Record World := {
  committed : Database;
  working : Database;
  disk : FileSystem;
  trace : list Event
}.

Definition set_working (d : Database) (w : World) : World :=
  {| committed := committed w; working := d; disk := disk w; trace := trace w |}.
Definition set_committed (d : Database) (w : World) : World :=
  {| committed := d; working := working w; disk := disk w; trace := trace w |}.
Definition set_disk (fs : FileSystem) (w : World) : World :=
  {| committed := committed w; working := working w; disk := fs; trace := trace w |}.
Definition log (e : Event) (w : World) : World :=
  {| committed := committed w; working := working w; disk := disk w;
     trace := trace w ++ [e] |}.

(** State and exceptions: a raised exception keeps the effects made so
    far. *)
Definition M (A : Type) : Type := World -> result A * World.

Definition ret {A} (a : A) : M A := fun w => (Ok a, w).
Definition raise {A} (e : exn) : M A := fun w => (Raise e, w).
Definition mbind {A B} (m : M A) (k : A -> M B) : M B :=
  fun w => match m w with
           | (Ok a, w') => k a w'
           | (Raise e, w') => (Raise e, w')
           end.
Definition try_except {A} (m : M A) (handler : exn -> M A) : M A :=
  fun w => match m w with
           | (Ok a, w') => (Ok a, w')
           | (Raise e, w') => handler e w'
           end.
(** [try: m finally: cleanup] *)
Definition try_finally {A} (m : M A) (cleanup : M unit) : M A :=
  fun w => let '(r, w') := m w in
           match cleanup w' with
           | (Ok _, w'') => (r, w'')
           | (Raise e, w'') => (Raise e, w'')
           end.
Definition lift {A} (r : result A) : M A := fun w => (r, w).
Definition emit (e : Event) : M unit := fun w => (Ok tt, log e w).

Declare Scope io_scope.
Delimit Scope io_scope with io.
Notation "x <- c1 ;; c2" := (mbind c1 (fun x => c2))
  (at level 100, c1 at next level, right associativity) : io_scope.
Notation "c1 ;;; c2" := (mbind c1 (fun _ => c2))
  (at level 100, right associativity) : io_scope.

(** ** The SQLAlchemy session *)

Module session.

(** [session.execute(select(User).where(p))] followed by [.scalars()]. *)
Definition select_users (p : User.t -> bool) : M (list User.t) :=
  fun w => (Ok (List.filter p (users (working w))), log EvExecute w).

Definition select_audio_files (p : AudioFile.t -> bool) : M (list AudioFile.t) :=
  fun w => (Ok (List.filter p (audio_files (working w))), log EvExecute w).

(** [.first()] *)
Definition first {A} (rows : list A) : option A := head rows.

(** [.scalar_one_or_none()] *)
Definition scalar_one_or_none {A} (rows : list A) : result (option A) :=
  match rows with
  | [] => Ok None
  | [r] => Ok (Some r)
  | _ => Raise MultipleResultsFound
  end.

(** Attribute assignment on a loaded [User]: the object is the row of
    that primary key in the session. *)
Definition setattr_user (pk : UUID) (f : User.t -> User.t) : M unit :=
  fun w =>
    let d := working w in
    (Ok tt,
     set_working {| users := (fun u => if bool_decide (User.id u = pk) then f u else u)
                               <$> users d;
                    audio_files := audio_files d |} w).

Definition add_user (u : User.t) : M unit :=
  fun w =>
    let d := working w in
    (Ok tt, log EvAdd (set_working {| users := users d ++ [u];
                                      audio_files := audio_files d |} w)).

Definition delete_audio_file (pk : UUID) : M unit :=
  fun w =>
    let d := working w in
    (Ok tt,
     log EvDelete
       (set_working {| users := users d;
                       audio_files :=
                         List.filter (fun f => negb (bool_decide (AudioFile.id f = pk)))
                                     (audio_files d) |} w)).

(** [commit] flushes the pending changes; the database refuses them
    with an integrity error when a declared constraint is broken. *)
Definition commit : M unit :=
  fun w =>
    let w := log EvCommit w in
    if constraints_ok (working w) then (Ok tt, set_committed (working w) w)
    else (Raise (IntegrityError "duplicate key value violates unique constraint"), w).

(** A Python [int] bound to an [Integer] column travels as a 32-bit
    value. *)
Definition in_int32 (n : Z) : bool := (-2147483648 <=? n) && (n <=? 2147483647).

(** [commit] when the pending statement binds [integers] to [Integer]
    columns: the flush refuses a value outside the 32-bit range, and
    nothing is written. *)
Definition commit_binding (integers : list Z) : M unit :=
  fun w =>
    if forallb in_int32 integers then commit w
    else (Raise (DBAPIError "invalid input for query argument: value out of int32 range"),
          log EvCommit w).

(** [session.add(obj)] for a new [AudioFile]: the object is pending
    until the flush. *)
Definition add_pending : M unit := emit EvAdd.

(** [commit] with a new [AudioFile] pending; [row] is the row its
    INSERT makes, or the error of the INSERT. The primary key of the
    inserted row is the result. *)
Definition commit_inserting (row : result AudioFile.t) : M UUID :=
  fun w =>
    match row with
    | Ok f =>
        let d := working w in
        match commit (set_working {| users := users d;
                                     audio_files := audio_files d ++ [f] |} w) with
        | (Ok _, w') => (Ok (AudioFile.id f), w')
        | (Raise e, w') => (Raise e, w')
        end
    | Raise e => (Raise e, log EvCommit w)
    end.

Definition rollback : M unit :=
  fun w => (Ok tt, log EvRollback (set_working (committed w) w)).

Definition refresh_user (pk : UUID) : M User.t :=
  fun w =>
    let w := log EvRefresh w in
    match List.find (fun u => bool_decide (User.id u = pk)) (users (working w)) with
    | Some u => (Ok u, w)
    | None => (Raise (InvalidRequestError "Could not refresh instance"), w)
    end.

Definition refresh_audio_file (pk : UUID) : M AudioFile.t :=
  fun w =>
    let w := log EvRefresh w in
    match List.find (fun f => bool_decide (AudioFile.id f = pk)) (audio_files (working w)) with
    | Some f => (Ok f, w)
    | None => (Raise (InvalidRequestError "Could not refresh instance"), w)
    end.

End session.

(** ** httpx *)

Module httpx.

(** One request through [AsyncClient]: it is sent once; a network
    failure surfaces as [RequestError]. *)
Definition send (provider : Request -> Reply) (r : Request) : M (Z * string * option dict) :=
  fun w =>
    let w := log (EvRequest r) w in
    match provider r with
    | NetworkFailure msg => (Raise (RequestError msg), w)
    | Response st text js => (Ok (st, text, js), w)
    end.

Definition is_success (status_code : Z) : bool :=
  (200 <=? status_code) && (status_code <? 300).

Definition raise_for_status (resp : Z * string * option dict) : M unit :=
  let '(st, text, _) := resp in
  if is_success st then ret tt else raise (HTTPStatusError text).

Definition json (resp : Z * string * option dict) : M dict :=
  let '(_, _, js) := resp in
  match js with
  | Some d => ret d
  | None => raise (ValueError "Expecting value")
  end.

End httpx.

(** ** [AuthService] ([app/services/auth.py]) *)

(** The dictionary [user_data] that [authenticate_user] hands to
    [_get_or_create_user]; the strings are as bound to the [String]
    columns, [ud_token_expires] is the Python [int], of any size. *)
Record UserData := {
  ud_yandex_id : string;
  ud_email : string;
  ud_name : string;
  ud_access_token : string;
  ud_token_expires : Z
}.

Module AuthService.

Definition tokeninfo_request (access_token : string) : Request := {|
  method := "GET";
  url := "https://oauth.yandex.ru/tokeninfo";
  params := [("access_token", access_token)];
  headers := [];
  data := [];
  timeout := Some 10
|}.

Definition info_request (access_token : string) : Request := {|
  method := "GET";
  url := "https://login.yandex.ru/info";
  params := [("format", "json"); ("with_openid_identity", "true")];
  headers := [("Authorization", "OAuth " ++ access_token)];
  data := [];
  timeout := Some 10
|}.

Definition get_yandex_user_info (provider : Request -> Reply)
    (access_token : string) : M dict :=
  try_except
    (token_response <- httpx.send provider (tokeninfo_request access_token) ;;
     httpx.raise_for_status token_response ;;;
     token_data <- httpx.json token_response ;;
     user_response <- httpx.send provider (info_request access_token) ;;
     httpx.raise_for_status user_response ;;;
     user_data <- httpx.json user_response ;;
     ret (<["access_token" := VStr access_token]> (user_data ∪ token_data)))%io
    (fun exc =>
       match exc with
       | HTTPStatusError text =>
           raise (HTTPException HTTP_401_UNAUTHORIZED ("Yandex API error: " ++ text))
       | RequestError _ =>
           raise (HTTPException HTTP_503_SERVICE_UNAVAILABLE
                    "Yandex OAuth service unavailable")
       | _ => raise exc
       end).

(** [s.split('@')[0]] *)
Fixpoint before_at (s : string) : string :=
  match s with
  | EmptyString => EmptyString
  | String c rest => if Ascii.eqb c "@"%char then EmptyString else String c (before_at rest)
  end.

(** [d.get(k)] *)
Definition get (d : dict) (k : string) : value := default VNone (d !! k).

(** [d[k]] *)
Definition getitem (d : dict) (k : string) : result value :=
  match d !! k with
  | Some v => Ok v
  | None => Raise (KeyError k)
  end.

(** A statement parameter bound to a [String] column. *)
Definition bind_string (v : value) : result string :=
  match v with
  | VStr s => Ok s
  | _ => Raise (DBAPIError "invalid input for query argument: expected str")
  end.

(** The [user_data] literal of [authenticate_user]; [token_expires] is
    the value of [int((datetime.now() + timedelta(days=30)).timestamp())]:
    thirty days are added to the local wall-clock time, and the sum is
    read back in the local time zone. *)
Definition prepare_user_data (yandex_data : dict) (yandex_token : string)
    (token_expires : Z) : result UserData :=
  (yandex_id <- getitem yandex_data "user_id" ;;
   email <- getitem yandex_data "default_email" ;;
   name <- (if truthy (get yandex_data "real_name") then Ok (get yandex_data "real_name")
            else if truthy (get yandex_data "display_name")
                 then Ok (get yandex_data "display_name")
            else match email with
                 | VStr s => Ok (VStr (before_at s))
                 | _ => Raise (AttributeError "object has no attribute 'split'")
                 end) ;;
   yandex_id <- bind_string yandex_id ;;
   email <- bind_string email ;;
   name <- bind_string name ;;
   Ok {| ud_yandex_id := yandex_id; ud_email := email; ud_name := name;
         ud_access_token := yandex_token; ud_token_expires := token_expires |})%py.

(** [new_id] is the value [uuid.uuid4] yields for the primary key when
    a row is inserted. *)
Definition _get_or_create_user (new_id : UUID) (user_data : UserData) : M User.t :=
  (result <- session.select_users
               (fun u => String.eqb (User.yandex_id u) (ud_yandex_id user_data)
                         || String.eqb (User.email u) (ud_email user_data)) ;;
   match session.first result with
   | Some user =>
       session.setattr_user (User.id user)
         (User.set_access_token (ud_access_token user_data)) ;;;
       session.setattr_user (User.id user)
         (User.set_token_expires (ud_token_expires user_data)) ;;;
       (if negb (String.eqb (User.yandex_id user) (ud_yandex_id user_data))
        then session.setattr_user (User.id user) (User.set_yandex_id (ud_yandex_id user_data))
        else ret tt) ;;;
       (if negb (bool_decide (User.name user = Some (ud_name user_data)))
        then session.setattr_user (User.id user) (User.set_name (ud_name user_data))
        else ret tt) ;;;
       session.commit_binding [ud_token_expires user_data] ;;;
       session.refresh_user (User.id user)
   | None =>
       let user := {|
         User.id := new_id;
         User.email := ud_email user_data;
         User.name := Some (ud_name user_data);
         User.yandex_id := ud_yandex_id user_data;
         User.is_active := true;
         User.is_superuser := false;
         User.access_token := Some (ud_access_token user_data);
         User.refresh_token := Some EmptyString;
         User.token_expires := Some (ud_token_expires user_data)
       |} in
       session.add_user user ;;;
       session.commit_binding [ud_token_expires user_data] ;;;
       session.refresh_user (User.id user)
   end)%io.

Definition authenticate_user (provider : Request -> Reply) (token_expires : Z)
    (new_id : UUID) (yandex_token : string) : M User.t :=
  try_except
    (yandex_data <- get_yandex_user_info provider yandex_token ;;
     if negb (forallb (fun key => bool_decide (is_Some (yandex_data !! key)))
                      ["user_id"; "default_email"])
     then raise (HTTPException HTTP_400_BAD_REQUEST "Incomplete Yandex user data")
     else
       user_data <- lift (prepare_user_data yandex_data yandex_token token_expires) ;;
       try_except
         (_get_or_create_user new_id user_data)
         (fun exc =>
            match exc with
            | IntegrityError _ =>
                session.rollback ;;;
                raise (HTTPException HTTP_409_CONFLICT
                         "User already exists with different credentials")
            | _ => raise exc
            end))%io
    (fun exc =>
       if is_HTTPException exc then raise exc
       else
         (session.rollback ;;;
          raise (HTTPException HTTP_500_INTERNAL_SERVER_ERROR
                   ("Authentication failed: " ++ str_exn exc)))%io).

End AuthService.

(** ** [yandex_callback] ([app/routes/yandex.py]) *)

Module requests.

(** [requests.post(url, data=data)]: sent once; every failure of the
    library is a [RequestException]. *)
Definition post (provider : Request -> Reply) (r : Request) : M (Z * string * option dict) :=
  fun w =>
    let w := log (EvRequest r) w in
    match provider r with
    | NetworkFailure msg => (Raise (RequestException msg), w)
    | Response st text js => (Ok (st, text, js), w)
    end.

Definition raise_for_status (resp : Z * string * option dict) : M unit :=
  let '(st, text, _) := resp in
  if (400 <=? st) && (st <? 600) then raise (RequestException (pretty st ++ " Error"))
  else ret tt.

Definition json (resp : Z * string * option dict) : M dict :=
  let '(_, _, js) := resp in
  match js with
  | Some d => ret d
  | None => raise (RequestException "Expecting value")
  end.

End requests.

Module YandexRoute.

Definition token_request (code client_id client_secret : string) : Request := {|
  method := "POST";
  url := "https://oauth.yandex.ru/token";
  params := [];
  headers := [];
  data := [("code", code); ("client_id", client_id);
           ("client_secret", client_secret); ("grant_type", "authorization_code")];
  timeout := None
|}.

(** The JSON response body is the result. *)
Definition yandex_callback (provider : Request -> Reply)
    (code client_id client_secret : string) : M dict :=
  try_except
    (response <- requests.post provider (token_request code client_id client_secret) ;;
     requests.raise_for_status response ;;;
     requests.json response)%io
    (fun exc =>
       match exc with
       | RequestException e => raise (HTTPException 400 ("Yandex OAuth error: " ++ e))
       | _ => raise exc
       end).

End YandexRoute.

(** ** The storage directory ([os], [open]) *)

Module os.

(** [open(path, "wb")] followed by [write(content)]. *)
Definition write_file (path : string) (content : list Byte.byte) : M unit :=
  fun w =>
    let fs := disk w in
    (Ok tt, log (EvWrite path)
              (set_disk {| files := <[path := content]> (files fs);
                           undeletable := undeletable fs |} w)).

Definition getsize (path : string) : M Z :=
  fun w =>
    match files (disk w) !! path with
    | Some content => (Ok (Z.of_nat (List.length content)), w)
    | None => (Raise (OSError "No such file or directory"), w)
    end.

Definition unlink (path : string) : M unit :=
  fun w =>
    let w := log (EvUnlink path) w in
    let fs := disk w in
    match files fs !! path with
    | None => (Raise (OSError "No such file or directory"), w)
    | Some _ =>
        if bool_decide (path ∈ undeletable fs)
        then (Raise (OSError "Permission denied"), w)
        else (Ok tt, set_disk {| files := delete path (files fs);
                                 undeletable := undeletable fs |} w)
    end.

(** [os.path.splitext(p)[1]]: the suffix from the last dot of the last
    path component, leading dots of the component not counting. *)
Fixpoint basename (s : string) (acc : string) : string :=
  match s with
  | EmptyString => acc
  | String c rest =>
      if Ascii.eqb c "/"%char then basename rest EmptyString
      else basename rest (acc ++ String c EmptyString)
  end.

Fixpoint strip_dots (s : string) : string :=
  match s with
  | String c rest => if Ascii.eqb c "."%char then strip_dots rest else s
  | EmptyString => EmptyString
  end.

Fixpoint last_suffix (s : string) (found : string) : string :=
  match s with
  | EmptyString => found
  | String c rest =>
      if Ascii.eqb c "."%char then last_suffix rest s else last_suffix rest found
  end.

Definition splitext_ext (p : string) : string :=
  last_suffix (strip_dots (basename p EmptyString)) EmptyString.

End os.

(** ** [pathlib] *)

Module pathlib.

(** A pure POSIX path: the root and the components, empty components
    and [.] left out. *)
Record t := {
  root : string;
  parts : list string
}.

Fixpoint split_slash (s : string) (acc : string) : list string :=
  match s with
  | EmptyString => [acc]
  | String c rest =>
      if Ascii.eqb c "/"%char then acc :: split_slash rest EmptyString
      else split_slash rest (acc ++ String c EmptyString)
  end.

Definition components (s : string) : list string :=
  List.filter (fun p => negb (String.eqb p EmptyString || String.eqb p "."))
              (split_slash s EmptyString).

(** Exactly two leading slashes are a root of their own. *)
Definition root_of (s : string) : string :=
  if String.prefix "///" s then "/"
  else if String.prefix "//" s then "//"
  else if String.prefix "/" s then "/"
  else EmptyString.

Definition parse (s : string) : t := {| root := root_of s; parts := components s |}.

(** [Path(o)] *)
Definition Path (o : pyobj) : result t :=
  match o with
  | PStr s => Ok (parse s)
  | _ => Raise (TypeError ("expected str, bytes or os.PathLike object, not "
                           ++ type_name o))
  end.

(** [p / s] *)
Definition joinpath (p : t) (s : string) : t :=
  let q := parse s in
  if String.eqb (root q) EmptyString
  then {| root := root p; parts := parts p ++ parts q |}
  else q.

(** [str(p)] *)
Definition str (p : t) : string :=
  match root p, parts p with
  | EmptyString, [] => "."
  | r, ps => r ++ join "/" ps
  end.

(** [p.exists()] *)
Definition exists_ (p : t) : M bool :=
  fun w => (Ok (bool_decide (is_Some (files (disk w) !! str p))), w).

End pathlib.

(** ** [AudioService] ([app/services/audio.py]) *)

(** The uploaded file as the framework hands it over: the whole body is
    already spooled in [file]. *)
Module UploadFile.
Record t := {
  filename : string;
  content_type : string;
  file : list Byte.byte
}.

(** [await file.close()] *)
Definition close : M unit := ret tt.
End UploadFile.

Module AudioService.

(** [filename_uuid] is the [uuid4()] of the stored file name, [row_id]
    the one the row gets as primary key. Creating the upload directory
    is not modelled. *)
Definition save_audio_file (settings : Settings.t) (filename_uuid row_id : UUID)
    (user_id : UUID) (file : UploadFile.t) : M AudioFileInDB.t :=
  try_finally
    (let file_ext := os.splitext_ext (UploadFile.filename file) in
     let filename := pretty filename_uuid ++ file_ext in
     upload_dir <- lift (getattr (Settings.object settings) "AUDIO_UPLOAD_DIR") ;;
     upload_dir <- lift (pathlib.Path upload_dir) ;;
     let file_path := pathlib.joinpath upload_dir filename in
     let content := UploadFile.file file in
     os.write_file (pathlib.str file_path) content ;;;
     file_size <- os.getsize (pathlib.str file_path) ;;
     audio_file <- lift (AudioFile.init
                           [("user_id", PUuid user_id);
                            ("original_filename", PStr (UploadFile.filename file));
                            ("file_path", PStr (pathlib.str file_path));
                            ("file_size", PInt file_size);
                            ("content_type", PStr (UploadFile.content_type file))]) ;;
     session.add_pending ;;;
     pk <- session.commit_inserting (AudioFile.insert row_id audio_file) ;;
     audio_file <- session.refresh_audio_file pk ;;
     lift (AudioFileInDB.from_orm audio_file))%io
    UploadFile.close.

(** [[AudioFileInDB.from_orm(file) for file in l]] *)
Fixpoint from_orm_each (l : list AudioFile.t) : result (list AudioFileInDB.t) :=
  match l with
  | [] => Ok []
  | f :: rest =>
      (m <- AudioFileInDB.from_orm f ;;
       ms <- from_orm_each rest ;;
       Ok (m :: ms))%py
  end.

Definition get_user_audio_files (user_id : UUID) : M (list AudioFileInDB.t) :=
  (result <- session.select_audio_files
               (fun f => bool_decide (AudioFile.user_id f = user_id)) ;;
   lift (from_orm_each result))%io.

Definition get_audio_file (file_id user_id : UUID) : M (option AudioFileInDB.t) :=
  (result <- session.select_audio_files
               (fun f => bool_decide (AudioFile.id f = file_id)
                         && bool_decide (AudioFile.user_id f = user_id)) ;;
   file <- lift (session.scalar_one_or_none result) ;;
   match file with
   | Some file => m <- lift (AudioFileInDB.from_orm file) ;; ret (Some m)
   | None => ret None
   end)%io.

Definition delete_audio_file (file_id user_id : UUID) : M bool :=
  (result <- session.select_audio_files
               (fun f => bool_decide (AudioFile.id f = file_id)
                         && bool_decide (AudioFile.user_id f = user_id)) ;;
   file <- lift (session.scalar_one_or_none result) ;;
   match file with
   | Some file =>
       try_except (os.unlink (AudioFile.file_path file))
         (fun exc =>
            match exc with
            | OSError e => emit (EvPrint ("Error deleting file: " ++ e))
            | _ => raise exc
            end) ;;;
       session.delete_audio_file (AudioFile.id file) ;;;
       session.commit ;;;
       ret true
   | None => ret false
   end)%io.

End AudioService.

(** ** [upload_audio_file] ([app/routes/audio.py]) *)

Module AudioRoute.

(** A call that passes every argument by keyword, against the
    parameter list of the callee: a keyword that names no parameter is
    a [TypeError], and so is a parameter left without a value. *)
Definition call_with_keywords (fname : string) (parameters keywords : list string)
  : result unit :=
  match List.filter (fun k => negb (bool_decide (k ∈ parameters))) keywords with
  | k :: _ =>
      Raise (TypeError (fname ++ "() got an unexpected keyword argument '" ++ k ++ "'"))
  | [] =>
      match List.filter (fun p => negb (bool_decide (p ∈ keywords))) parameters with
      | p :: _ =>
          Raise (TypeError (fname ++ "() missing 1 required positional argument: '"
                            ++ p ++ "'"))
      | [] => Ok tt
      end
  end.

(** [def save_audio_file(user_id, file, session)] *)
Definition save_audio_file_parameters : list string := ["user_id"; "file"; "session"].

Fixpoint is_substring (x s : string) : bool :=
  String.prefix x s
  || match s with
     | EmptyString => false
     | String _ rest => is_substring x rest
     end.

(** [x not in o], for a string [x] *)
Definition not_in (x : string) (o : pyobj) : result bool :=
  match o with
  | PList l => Ok (negb (bool_decide (x ∈ l)))
  | PStr s => Ok (negb (is_substring x s))
  | _ => Raise (TypeError ("argument of type '" ++ type_name o ++ "' is not iterable"))
  end.

(** [', '.join(o)] *)
Definition join_object (sep : string) (o : pyobj) : result string :=
  match o with
  | PList l => Ok (join sep l)
  | PStr s => Ok (join sep ((fun c => String c EmptyString) <$> list_ascii_of_string s))
  | _ => Raise (TypeError "can only join an iterable")
  end.

(** [n > o], for an integer [n] *)
Definition greater (n : Z) (o : pyobj) : result bool :=
  match o with
  | PInt m => Ok (m <? n)
  | PBool b => Ok ((if b then 1 else 0) <? n)
  | _ => Raise (TypeError ("'>' not supported between instances of 'int' and '"
                           ++ type_name o ++ "'"))
  end.

(** [o] inside an f-string *)
Definition format (o : pyobj) : string :=
  match o with
  | PNone => "None"
  | PBool b => if b then "True" else "False"
  | PInt n => pretty n
  | PStr s => s
  | PSecretStr _ => "**********"
  | PList l => "[" ++ join ", " ((fun s => "'" ++ s ++ "'") <$> l) ++ "]"
  | PUuid u => pretty u
  | PObject class_name _ => class_name ++ "()"
  end.

(** [settings.audio.name] *)
Definition settings_audio (settings : Settings.t) (name : string) : result pyobj :=
  (audio <- getattr (Settings.object settings) "audio" ;;
   getattr audio name)%py.

Definition upload_audio_file (settings : Settings.t) (filename_uuid row_id : UUID)
    (file : UploadFile.t) (current_user : User.t) : M AudioFileInDB.t :=
  (allowed_types <- lift (settings_audio settings "allowed_types") ;;
   unsupported <- lift (not_in (UploadFile.content_type file) allowed_types) ;;
   if unsupported then
     allowed_types <- lift (settings_audio settings "allowed_types") ;;
     allowed <- lift (join_object ", " allowed_types) ;;
     raise (HTTPException HTTP_400_BAD_REQUEST
              ("Unsupported file type. Allowed: " ++ allowed))
   else
     let file_size := Z.of_nat (List.length (UploadFile.file file)) in
     max_file_size <- lift (settings_audio settings "max_file_size") ;;
     too_large <- lift (greater file_size max_file_size) ;;
     if too_large then
       max_file_size <- lift (settings_audio settings "max_file_size") ;;
       raise (HTTPException HTTP_413_REQUEST_ENTITY_TOO_LARGE
                ("File too large. Max size: " ++ format max_file_size ++ " bytes"))
     else
       storage_path <- lift (settings_audio settings "storage_path") ;;
       lift (call_with_keywords "AudioService.save_audio_file" save_audio_file_parameters
               ["user_id"; "file"; "session"; "storage_path"]) ;;;
       AudioService.save_audio_file settings filename_uuid row_id
         (User.id current_user) file)%io.

End AudioRoute.

(** ** Vocabulary of the statements, and the data of the examples *)

(** The [where] clause of [_get_or_create_user]. *)
Definition matches (user_data : UserData) (u : User.t) : bool :=
  String.eqb (User.yandex_id u) (ud_yandex_id user_data)
  || String.eqb (User.email u) (ud_email user_data).

(** The row [u] after reconciliation with [user_data]. *)
Definition reconciled (user_data : UserData) (u : User.t) : User.t := {|
  User.id := User.id u;
  User.email := User.email u;
  User.name := Some (ud_name user_data);
  User.yandex_id := ud_yandex_id user_data;
  User.is_active := User.is_active u;
  User.is_superuser := User.is_superuser u;
  User.access_token := Some (ud_access_token user_data);
  User.refresh_token := User.refresh_token u;
  User.token_expires := Some (ud_token_expires user_data)
|}.

(** The row inserted for a profile seen for the first time. *)
Definition created (new_id : UUID) (user_data : UserData) : User.t := {|
  User.id := new_id;
  User.email := ud_email user_data;
  User.name := Some (ud_name user_data);
  User.yandex_id := ud_yandex_id user_data;
  User.is_active := true;
  User.is_superuser := false;
  User.access_token := Some (ud_access_token user_data);
  User.refresh_token := Some EmptyString;
  User.token_expires := Some (ud_token_expires user_data)
|}.

(** The table with the row of [u']'s primary key replaced by [u']. *)
Definition replace_row (u' : User.t) (l : list User.t) : list User.t :=
  (fun v => if bool_decide (User.id v = User.id u') then u' else v) <$> l.

(** Two users; the profile [example_conflict] carries the subject id of
    the second and the email of the first. *)
Definition alice : User.t := {|
  User.id := 1%N; User.email := "a@b.com"; User.name := Some "Alice";
  User.yandex_id := "42"; User.is_active := true; User.is_superuser := false;
  User.access_token := Some "old"; User.refresh_token := Some EmptyString;
  User.token_expires := Some 100
|}.

Definition bob : User.t := {|
  User.id := 2%N; User.email := "b@b.com"; User.name := Some "Bob";
  User.yandex_id := "43"; User.is_active := true; User.is_superuser := false;
  User.access_token := Some "old"; User.refresh_token := Some EmptyString;
  User.token_expires := Some 100
|}.

Definition empty_disk : FileSystem := {| files := ∅; undeletable := ∅ |}.

Definition world_of (d : Database) (fs : FileSystem) : World :=
  {| committed := d; working := d; disk := fs; trace := [] |}.

Definition two_users : World :=
  world_of {| users := [alice; bob]; audio_files := [] |} empty_disk.

Definition example_refresh : UserData := {|
  ud_yandex_id := "42"; ud_email := "a@b.com"; ud_name := "Alice";
  ud_access_token := "new"; ud_token_expires := 200
|}.

Definition example_conflict : UserData := {|
  ud_yandex_id := "43"; ud_email := "a@b.com"; ud_name := "Alice";
  ud_access_token := "new"; ud_token_expires := 200
|}.

Definition example_newcomer : UserData := {|
  ud_yandex_id := "44"; ud_email := "c@b.com"; ud_name := "Carol";
  ud_access_token := "new"; ud_token_expires := 200
|}.

(** The declared constraints, as propositions. *)
Record valid (d : Database) : Prop := {
  valid_user_ids : NoDup (User.id <$> users d);
  valid_emails : NoDup (User.email <$> users d);
  valid_yandex_ids : NoDup (User.yandex_id <$> users d);
  valid_audio_ids : NoDup (AudioFile.id <$> audio_files d);
  valid_owner : Forall (fun f => AudioFile.user_id f ∈ (User.id <$> users d)) (audio_files d)
}.


(** A provider that cannot be reached, and one that answers the two
    profile calls with subject id "43" and email "a@b.com". *)
Definition provider_down (r : Request) : Reply := NetworkFailure "connection refused".

Definition provider_conflicting (r : Request) : Reply :=
  if String.eqb (url r) "https://oauth.yandex.ru/tokeninfo"
  then Response 200 EmptyString (Some {["user_id" := VStr "43"]})
  else Response 200 EmptyString (Some {["default_email" := VStr "a@b.com";
                               "real_name" := VStr "Alice"]}).

Definition empty_world : World :=
  world_of {| users := []; audio_files := [] |} empty_disk.

(** The [where] clauses of [get_audio_file] and [delete_audio_file]. *)
Definition selected (file_id user_id : UUID) (f : AudioFile.t) : Prop :=
  AudioFile.id f = file_id /\ AudioFile.user_id f = user_id.

Definition selects (file_id user_id : UUID) (f : AudioFile.t) : bool :=
  bool_decide (AudioFile.id f = file_id) && bool_decide (AudioFile.user_id f = user_id).

(** A configuration as [Settings()] builds it, with the defaults of
    [AuthSettings]. *)
Definition example_settings : Settings.t := {|
  Settings.app :=
    PObject "AppSettings"
      [("project_name", PStr "audio-service"); ("debug", PBool false);
       ("environment", PStr "production"); ("cors_origins", PList ["*"])];
  Settings.database :=
    PObject "DatabaseSettings"
      [("user", PStr "postgres"); ("password", PSecretStr "postgres");
       ("db", PStr "audio"); ("host", PStr "db"); ("port", PInt 5432);
       ("pool_size", PInt 5); ("max_overflow", PInt 10); ("pool_timeout", PInt 30);
       ("echo_sql", PBool false)];
  Settings.auth := {|
    AuthSettings.secret_key := "change-me";
    AuthSettings.algorithm := "HS256";
    AuthSettings.access_token_expire_minutes := 30;
    AuthSettings.refresh_token_expire_days := 7
  |};
  Settings.yandex :=
    PObject "YandexOAuthSettings"
      [("client_id", PStr "id"); ("client_secret", PSecretStr "secret");
       ("redirect_uri", PStr "http://localhost:8000/auth/yandex/callback");
       ("frontend_url", PStr "http://localhost:3000");
       ("token_url", PStr "https://oauth.yandex.ru/token");
       ("auth_url", PStr "https://oauth.yandex.ru/authorize")]
|}.

Definition five_bytes : list Byte.byte := repeat Byte.x00 5.
Definition eleven_bytes : list Byte.byte := repeat Byte.x00 11.

Definition song : UploadFile.t := {|
  UploadFile.filename := "song.mp3";
  UploadFile.content_type := "audio/mpeg";
  UploadFile.file := five_bytes
|}.

Definition oversize_text : UploadFile.t := {|
  UploadFile.filename := "notes.txt";
  UploadFile.content_type := "text/plain";
  UploadFile.file := eleven_bytes
|}.

Definition oversize_song : UploadFile.t := {|
  UploadFile.filename := "long.mp3";
  UploadFile.content_type := "audio/mpeg";
  UploadFile.file := eleven_bytes
|}.

(** Alice owns one stored file; Bob owns none. *)
Definition alice_song : AudioFile.t := {|
  AudioFile.id := 7%N;
  AudioFile.user_id := 1%N;
  AudioFile.filename := "5.mp3";
  AudioFile.original_filename := "song.mp3";
  AudioFile.file_path := "static/audio_files/5.mp3"
|}.

Definition library : World :=
  world_of {| users := [alice; bob]; audio_files := [alice_song] |}
    {| files := {["static/audio_files/5.mp3" := five_bytes]}; undeletable := ∅ |}.

(** The characters of a string. *)
Fixpoint chars (s : string) : list ascii :=
  match s with
  | EmptyString => []
  | String c rest => c :: chars rest
  end.

(** A provider whose profile lacks the email, one whose profile body is
    not JSON, and one that knows a newcomer. *)
Definition provider_without_email (r : Request) : Reply :=
  if String.eqb (url r) "https://oauth.yandex.ru/tokeninfo"
  then Response 200 EmptyString (Some {["user_id" := VStr "44"]})
  else Response 200 EmptyString (Some {["real_name" := VStr "Carol"]}).

Definition provider_newcomer (r : Request) : Reply :=
  if String.eqb (url r) "https://oauth.yandex.ru/tokeninfo"
  then Response 200 EmptyString (Some {["user_id" := VStr "44"]})
  else Response 200 EmptyString (Some {["default_email" := VStr "carol@b.com";
                                        "display_name" := VStr "carol44"]}).


(** ** The remaining routes of [app/routes/audio.py] *)

Definition HTTP_403_FORBIDDEN : Z := 403.
Definition HTTP_404_NOT_FOUND : Z := 404.
Definition HTTP_410_GONE : Z := 410.

(** [FileResponse(path, media_type=..., filename=...)] *)
Record FileResponse := {
  response_path : string;
  media_type : string;
  download_name : string
}.

Module AudioRoutes.

Definition get_my_audio_files (current_user : User.t) : M (list AudioFileInDB.t) :=
  AudioService.get_user_audio_files (User.id current_user).

Definition download_audio_file (file_id : UUID) (current_user : User.t) : M FileResponse :=
  (audio_file <- AudioService.get_audio_file file_id (User.id current_user) ;;
   match audio_file with
   | None => raise (HTTPException HTTP_404_NOT_FOUND "Audio file not found")
   | Some audio_file =>
       let file_path := pathlib.parse (AudioFileInDB.file_path audio_file) in
       present <- pathlib.exists_ file_path ;;
       if negb present then
         raise (HTTPException HTTP_410_GONE "File no longer exists on server")
       else
         ret {| response_path := pathlib.str file_path;
                media_type := AudioFileInDB.content_type audio_file;
                download_name := AudioFileInDB.original_filename audio_file |}
   end)%io.

(** The route answers 204 with an empty body. *)
Definition delete_audio_file (file_id : UUID) (current_user : User.t) : M unit :=
  (success <- AudioService.delete_audio_file file_id (User.id current_user) ;;
   if negb success then
     raise (HTTPException HTTP_404_NOT_FOUND
              "Audio file not found or you don't have permission")
   else ret tt)%io.

End AudioRoutes.

(** ** [app/routes/users.py] *)

(** [async with AsyncSessionLocal() as session]: a session of its own,
    which starts from the committed database; leaving the block closes
    it, and what was not committed is discarded. *)
Module AsyncSessionLocal.

Definition enter : M unit := fun w => (Ok tt, set_working (committed w) w).

Definition close : M unit := fun w => (Ok tt, set_working (committed w) w).

Definition async_with {A} (body : M A) : M A :=
  fun w =>
    let '(_, w0) := enter w in
    let '(r, w1) := body w0 in
    (r, snd (close w1)).

(** [session.delete(user)] *)
Definition delete_user (pk : UUID) : M unit :=
  fun w =>
    let d := working w in
    (Ok tt,
     log EvDelete
       (set_working {| users := List.filter (fun u => negb (bool_decide (User.id u = pk)))
                                  (users d);
                       audio_files := audio_files d |} w)).

(** The row of a re-attached object takes the attributes that were
    assigned a different value since the object was loaded. *)
Definition merge_user (loaded modified row : User.t) : User.t := {|
  User.id := User.id row;
  User.email := if bool_decide (User.email loaded = User.email modified)
                then User.email row else User.email modified;
  User.name := if bool_decide (User.name loaded = User.name modified)
               then User.name row else User.name modified;
  User.yandex_id := User.yandex_id row;
  User.is_active := if bool_decide (User.is_active loaded = User.is_active modified)
                    then User.is_active row else User.is_active modified;
  User.is_superuser :=
    if bool_decide (User.is_superuser loaded = User.is_superuser modified)
    then User.is_superuser row else User.is_superuser modified;
  User.access_token := User.access_token row;
  User.refresh_token := User.refresh_token row;
  User.token_expires := User.token_expires row
|}.

(** [session.add(obj)] for an object loaded as [loaded] by an earlier
    session and modified since: its changes become pending on the row of
    its primary key. *)
Definition add_modified (loaded modified : User.t) : M unit :=
  fun w =>
    let d := working w in
    (Ok tt,
     log EvAdd
       (set_working {| users := (fun row => if bool_decide (User.id row = User.id loaded)
                                            then merge_user loaded modified row else row)
                                  <$> users d;
                       audio_files := audio_files d |} w)).

(** [commit] with a re-attached object pending: the UPDATE has to find
    the row. The ORM reports a row that is gone as a stale-data error,
    carried here by [InvalidRequestError]. *)
Definition commit_modified (pk : UUID) : M unit :=
  fun w =>
    if existsb (fun u => bool_decide (User.id u = pk)) (users (working w))
    then session.commit w
    else (Raise (InvalidRequestError
                   "UPDATE statement on table 'users' expected to update 1 row(s); 0 were matched."),
          log EvCommit w).

End AsyncSessionLocal.

(** [UserUpdate] of [app/schemas/user.py]. *)
Module UserUpdate.
Record t := {
  email : string;
  name : option string;
  is_active : option bool;
  is_superuser : option bool
}.
End UserUpdate.

Module UsersRoutes.

(** [await v] for a value that is not awaitable: [verify_token] is a
    plain function, and what it returns is a dictionary. *)
Definition await_dict (v : dict) : M dict :=
  raise (TypeError "object dict can't be used in 'await' expression").

Definition get_current_user `{Jose} (settings : Settings.t) (utcnow : Z)
    (token : string) : M User.t :=
  let credentials_exception :=
    HTTPException HTTP_401_UNAUTHORIZED "Could not validate credentials" in
  (payload <- (returned <- lift (AuthToken.verify_token settings utcnow token) ;;
               await_dict returned) ;;
   if bool_decide (payload = ∅) then raise credentials_exception
   else
     let user_id := AuthService.get payload "sub" in
     if negb (truthy user_id) then raise credentials_exception
     else
       AsyncSessionLocal.async_with
         (result <- session.select_users
                      (fun u => bool_decide (VStr (pretty (User.id u)) = user_id)) ;;
          match session.first result with
          | None => raise credentials_exception
          | Some user => ret user
          end))%io.

Definition get_current_superuser (current_user : User.t) : result User.t :=
  if negb (User.is_superuser current_user) then
    Raise (HTTPException HTTP_403_FORBIDDEN "The user doesn't have enough privileges")
  else Ok current_user.

Definition read_user_me (current_user : User.t) : User.t := current_user.

Definition set_email (v : string) (u : User.t) : User.t :=
  {| User.id := User.id u; User.email := v; User.name := User.name u;
     User.yandex_id := User.yandex_id u; User.is_active := User.is_active u;
     User.is_superuser := User.is_superuser u; User.access_token := User.access_token u;
     User.refresh_token := User.refresh_token u; User.token_expires := User.token_expires u |}.

Definition set_is_active (v : bool) (u : User.t) : User.t :=
  {| User.id := User.id u; User.email := User.email u; User.name := User.name u;
     User.yandex_id := User.yandex_id u; User.is_active := v;
     User.is_superuser := User.is_superuser u; User.access_token := User.access_token u;
     User.refresh_token := User.refresh_token u; User.token_expires := User.token_expires u |}.

Definition set_is_superuser (v : bool) (u : User.t) : User.t :=
  {| User.id := User.id u; User.email := User.email u; User.name := User.name u;
     User.yandex_id := User.yandex_id u; User.is_active := User.is_active u;
     User.is_superuser := v; User.access_token := User.access_token u;
     User.refresh_token := User.refresh_token u; User.token_expires := User.token_expires u |}.

(** The loop over [vars(user_update).items()]: every field that is not
    [None] is assigned to the attribute of the same name. *)
Definition assign_fields (user_update : UserUpdate.t) (current_user : User.t) : User.t :=
  let current_user := set_email (UserUpdate.email user_update) current_user in
  let current_user := match UserUpdate.name user_update with
                      | Some v => User.set_name v current_user
                      | None => current_user
                      end in
  let current_user := match UserUpdate.is_active user_update with
                      | Some v => set_is_active v current_user
                      | None => current_user
                      end in
  match UserUpdate.is_superuser user_update with
  | Some v => set_is_superuser v current_user
  | None => current_user
  end.

Definition update_user_me (user_update : UserUpdate.t) (current_user : User.t) : M User.t :=
  AsyncSessionLocal.async_with
    (let modified := assign_fields user_update current_user in
     AsyncSessionLocal.add_modified current_user modified ;;;
     AsyncSessionLocal.commit_modified (User.id current_user) ;;;
     session.refresh_user (User.id current_user))%io.

(** The body [{"ok": True}] is the result. *)
Definition delete_user (user_id : UUID) (current_user : User.t) : M dict :=
  AsyncSessionLocal.async_with
    (result <- session.select_users (fun u => bool_decide (User.id u = user_id)) ;;
     match session.first result with
     | None => raise (HTTPException HTTP_404_NOT_FOUND "User not found")
     | Some user =>
         AsyncSessionLocal.delete_user (User.id user) ;;;
         session.commit ;;;
         ret {["ok" := VBool true]}
     end)%io.

End UsersRoutes.

(** Bob asks for his own promotion. *)
Definition promote_me : UserUpdate.t := {|
  UserUpdate.email := "b@b.com";
  UserUpdate.name := None;
  UserUpdate.is_active := None;
  UserUpdate.is_superuser := Some true
|}.

(** * The configuration the services read *)

(** [Settings] declares four fields, and any other name read from the
    instance is an [AttributeError]. *)
Lemma getattr_Settings_undeclared (settings : Settings.t) (name : string) :
  name ∉ ["app"; "database"; "auth"; "yandex"] ->
  getattr (Settings.object settings) name
  = Raise (AttributeError ("'Settings' object has no attribute '" ++ name ++ "'")).
Proof.
  intros Hname. unfold getattr, Settings.object. cbn [assoc type_name].
  repeat (match goal with
          | |- context [String.eqb ?k name] =>
              destruct (String.eqb_spec k name) as [<- | _];
              [exfalso; apply Hname; set_solver|]
          end).
  reflexivity.
Qed.

(** [name] is none of the listed names. *)
Ltac undeclared :=
  let Hin := fresh "Hin" in
  intros Hin;
  repeat (apply elem_of_cons in Hin as [Hin | Hin]; [discriminate Hin|]);
  apply elem_of_nil in Hin; exact Hin.

(** * The token service *)

Section TokenService.
Context `{Jose}.
Import AuthToken.
Variables (settings : Settings.t) (utcnow : Z).

Lemma create_access_token_run (data : dict) :
  create_access_token settings utcnow data
  = Raise (AttributeError
             "'Settings' object has no attribute 'ACCESS_TOKEN_EXPIRE_MINUTES'").
Proof.
  unfold create_access_token. cbv zeta.
  rewrite (getattr_Settings_undeclared settings "ACCESS_TOKEN_EXPIRE_MINUTES")
    by undeclared.
  reflexivity.
Qed.

Lemma verify_token_run (token : string) :
  verify_token settings utcnow token
  = Raise (AttributeError "'Settings' object has no attribute 'SECRET_KEY'").
Proof.
  unfold verify_token. cbv zeta.
  rewrite (getattr_Settings_undeclared settings "SECRET_KEY") by undeclared.
  reflexivity.
Qed.

(** C1, as the code has it. [create_access_token] reads
    [settings.ACCESS_TOKEN_EXPIRE_MINUTES], which [Settings] does not
    declare: for every payload the call ends with the [AttributeError]
    of that read, which its [except] clause does not catch. No token is
    made, and issuing a token for a subject and verifying it ends with
    the same error. *)
Theorem create_access_token_raises (data : dict) (U : string) :
  let missing :=
    AttributeError "'Settings' object has no attribute 'ACCESS_TOKEN_EXPIRE_MINUTES'" in
  create_access_token settings utcnow data = Raise missing /\
  (forall token, create_access_token settings utcnow data <> Ok token) /\
  (token <- create_access_token settings utcnow {["sub" := VStr U]} ;;
   verify_token settings utcnow token)%py = Raise missing.
Proof.
  cbv zeta. rewrite !create_access_token_run.
  split; [reflexivity|]. split; [intros; discriminate | reflexivity].
Qed.

(** C2, as the code has it. [verify_token] reads [settings.SECRET_KEY],
    which [Settings] does not declare: for every token, whatever its
    signature, claims and expiry, the call ends with the
    [AttributeError] of that read before the library sees the token. It
    returns no payload and reports none of the three 401 kinds. *)
Theorem verify_token_raises (token : string) :
  verify_token settings utcnow token
  = Raise (AttributeError "'Settings' object has no attribute 'SECRET_KEY'") /\
  (forall payload, verify_token settings utcnow token <> Ok payload) /\
  (forall detail,
      verify_token settings utcnow token
      <> Raise (HTTPException HTTP_401_UNAUTHORIZED detail)).
Proof.
  rewrite verify_token_run.
  split; [reflexivity|]. split; intros; discriminate.
Qed.
End TokenService.

(** * The database constraints *)

Lemma constraints_ok_valid d : constraints_ok d = true <-> valid d.
Proof.
  unfold constraints_ok. rewrite !andb_true_iff, !bool_decide_eq_true.
  split.
  - intros [[[[? ?] ?] ?] ?]. constructor; assumption.
  - intros []. repeat split; assumption.
Qed.

Lemma NoDup_fmap_eq {A B} (f : A -> B) (l : list A) (x y : A) :
  NoDup (f <$> l) -> x ∈ l -> y ∈ l -> f x = f y -> x = y.
Proof.
  induction l as [|a l IH]; intros Hnd Hx Hy Hf.
  - inversion Hx.
  - rewrite fmap_cons in Hnd. apply NoDup_cons in Hnd as [Hnotin Hnd].
    apply elem_of_cons in Hx as [-> | Hx]; apply elem_of_cons in Hy as [-> | Hy].
    + reflexivity.
    + exfalso. apply Hnotin. rewrite Hf. apply list_elem_of_fmap. eauto.
    + exfalso. apply Hnotin. rewrite <- Hf. apply list_elem_of_fmap. eauto.
    + apply IH; assumption.
Qed.

Lemma filter_nil_false {A} (p : A -> bool) (l : list A) :
  List.filter p l = [] -> forall x, x ∈ l -> p x = false.
Proof.
  intros Hnil x Hx. destruct (p x) eqn:Hp; [|reflexivity].
  assert (Hin : In x (List.filter p l)).
  { apply filter_In. split; [apply list_elem_of_In; assumption | assumption]. }
  rewrite Hnil in Hin. destruct Hin.
Qed.

Lemma head_filter_Some {A} (p : A -> bool) (l : list A) (x : A) :
  head (List.filter p l) = Some x -> x ∈ l /\ p x = true.
Proof.
  intros Hh. assert (Hin : In x (List.filter p l)).
  { destruct (List.filter p l); [discriminate|]. injection Hh as ->. left. reflexivity. }
  apply filter_In in Hin as [Hin Hp]. split; [apply list_elem_of_In; assumption | assumption].
Qed.

Section ReplaceRow.
Variables (u u' : User.t) (l : list User.t).
Hypothesis Hid : User.id u' = User.id u.
Hypothesis Hemail : User.email u' = User.email u.
Hypothesis Hu : u ∈ l.
Hypothesis Hids : NoDup (User.id <$> l).

Lemma replace_row_ids : User.id <$> replace_row u' l = User.id <$> l.
Proof.
  unfold replace_row. rewrite <- list_fmap_compose. apply list_fmap_ext.
  intros i v _. cbn. case_bool_decide; congruence.
Qed.

Lemma replace_row_emails : User.email <$> replace_row u' l = User.email <$> l.
Proof.
  unfold replace_row. rewrite <- list_fmap_compose. apply list_fmap_ext.
  intros i v Hv. cbn. case_bool_decide as Hc; [|reflexivity].
  rewrite Hid in Hc.
  assert (v = u) as ->; [|assumption].
  eapply NoDup_fmap_eq; eauto. eapply list_elem_of_lookup_2; eassumption.
Qed.

Lemma elem_of_replace_row x :
  x ∈ replace_row u' l <->
  (x = u') \/ (x ∈ l /\ User.id x <> User.id u).
Proof.
  unfold replace_row. rewrite list_elem_of_fmap. split.
  - intros (v & -> & Hv). case_bool_decide as Hc; [left; reflexivity|].
    right. split; [assumption | congruence].
  - intros [-> | [Hx Hne]].
    + exists u. split; [|assumption]. rewrite bool_decide_eq_true_2; congruence.
    + exists x. split; [|assumption]. rewrite bool_decide_eq_false_2; congruence.
Qed.

Lemma find_replace_row :
  List.find (fun v => bool_decide (User.id v = User.id u)) (replace_row u' l) = Some u'.
Proof.
  destruct (List.find _ _) as [x|] eqn:Hf.
  - apply find_some in Hf as [Hin Hx]. apply bool_decide_eq_true_1 in Hx.
    apply list_elem_of_In, elem_of_replace_row in Hin as [-> | [_ Hne]];
      [reflexivity | contradiction].
  - exfalso. pose proof (find_none _ _ Hf u') as Hn. cbn in Hn.
    rewrite bool_decide_eq_true_2 in Hn by assumption.
    discriminate Hn. apply list_elem_of_In, elem_of_replace_row. left. reflexivity.
Qed.

Lemma replace_row_yandex_ids :
  NoDup (User.yandex_id <$> l) ->
  (forall v, v ∈ l -> User.yandex_id v = User.yandex_id u' -> User.id v = User.id u) ->
  NoDup (User.yandex_id <$> replace_row u' l).
Proof.
  intros Hy Hfree. apply NoDup_fmap_2_strong.
  - intros x y Hx Hy' Hxy.
    apply elem_of_replace_row in Hx as [-> | [Hx Hxne]];
      apply elem_of_replace_row in Hy' as [-> | [Hy' Hyne]].
    + reflexivity.
    + exfalso. apply Hyne. apply Hfree; [assumption | congruence].
    + exfalso. apply Hxne. apply Hfree; [assumption | congruence].
    + eapply NoDup_fmap_eq; eauto.
  - apply (NoDup_fmap_1 User.id). rewrite replace_row_ids. assumption.
Qed.

Lemma replace_row_conflict v :
  v ∈ l -> User.yandex_id v = User.yandex_id u' -> User.id v <> User.id u ->
  ~ NoDup (User.yandex_id <$> replace_row u' l).
Proof.
  intros Hv Hy Hne Hnd. apply Hne.
  assert (v = u') as ->; [|assumption].
  eapply NoDup_fmap_eq; [exact Hnd | | | assumption].
  - apply elem_of_replace_row. right. split; assumption.
  - apply elem_of_replace_row. left. reflexivity.
Qed.
End ReplaceRow.

Lemma fmap_replace_row (F : User.t -> User.t) (u u' : User.t) (l : list User.t) :
  NoDup (User.id <$> l) -> u ∈ l ->
  User.id u' = User.id u ->
  (forall v, User.id v <> User.id u -> F v = v) ->
  F u = u' ->
  F <$> l = replace_row u' l.
Proof.
  intros Hnd Hu Hid Hother Hself. unfold replace_row. apply list_fmap_ext.
  intros i v Hv. case_bool_decide as Hc.
  - rewrite Hid in Hc. assert (v = u) as ->; [|assumption].
    eapply NoDup_fmap_eq; eauto. eapply list_elem_of_lookup_2; eassumption.
  - apply Hother. congruence.
Qed.

(** * Reconciliation: [_get_or_create_user] *)

Lemma commit_binding_in_range (n : Z) (w : World) :
  session.in_int32 n = true -> session.commit_binding [n] w = session.commit w.
Proof. intros Hn. unfold session.commit_binding. cbn [forallb]. rewrite Hn. reflexivity. Qed.

Lemma commit_binding_out_of_range (n : Z) (w : World) :
  session.in_int32 n = false ->
  session.commit_binding [n] w
  = (Raise (DBAPIError "invalid input for query argument: value out of int32 range"),
     log EvCommit w).
Proof. intros Hn. unfold session.commit_binding. cbn [forallb]. rewrite Hn. reflexivity. Qed.

Section Reconciliation.
Import AuthService.
Variables (new_id : UUID) (user_data : UserData) (w : World).

Let l := users (working w).

Lemma get_or_create_user_found u :
  NoDup (User.id <$> l) ->
  session.first (List.filter (matches user_data) l) = Some u ->
  _get_or_create_user new_id user_data w
  = mbind (session.commit_binding [ud_token_expires user_data])
      (fun _ => session.refresh_user (User.id u))
      (set_working {| users := replace_row (reconciled user_data u) l;
                      audio_files := audio_files (working w) |}
         (log EvExecute w)).
Proof.
  intros Hnd Hfirst.
  destruct (head_filter_Some _ _ _ Hfirst) as [Hu _].
  unfold _get_or_create_user, mbind at 1, session.select_users.
  cbn [working log]. fold l. change (fun u0 => _ || _) with (matches user_data).
  rewrite Hfirst.
  assert (Hgen : forall F : User.t -> User.t,
             (forall v, User.id v <> User.id u -> F v = v) ->
             F u = reconciled user_data u ->
             F <$> l = replace_row (reconciled user_data u) l).
  { intros F H1 H2. apply (fmap_replace_row F u); auto. }
  destruct (String.eqb_spec (User.yandex_id u) (ud_yandex_id user_data)) as [Hy|Hy];
    destruct (decide (User.name u = Some (ud_name user_data))) as [Hn|Hn];
    [ rewrite (bool_decide_eq_true_2 _ Hn) | rewrite (bool_decide_eq_false_2 _ Hn)
    | rewrite (bool_decide_eq_true_2 _ Hn) | rewrite (bool_decide_eq_false_2 _ Hn) ];
    cbn [negb]; unfold mbind, session.setattr_user, ret, set_working, log;
    cbn [working users audio_files committed disk trace];
    fold l; rewrite <- ?list_fmap_compose.
  all: match goal with
       | |- context [{| users := ?F <$> l; audio_files := _ |}] =>
           rewrite (Hgen F);
           [ reflexivity
           | intros v Hv; cbn;
             repeat (rewrite (bool_decide_eq_false_2 _ Hv); cbn [User.id]); reflexivity
           | cbn;
             repeat (rewrite (bool_decide_eq_true_2 (User.id u = User.id u) eq_refl);
                     cbn [User.id User.set_access_token User.set_token_expires
                            User.set_yandex_id User.set_name]);
             unfold reconciled; destruct u; cbn in *; subst; reflexivity ]
       end.
Qed.

Lemma valid_replace_row u :
  valid (working w) -> u ∈ l ->
  (forall v, v ∈ l -> User.yandex_id v = ud_yandex_id user_data -> User.id v = User.id u) ->
  valid {| users := replace_row (reconciled user_data u) l;
           audio_files := audio_files (working w) |}.
Proof.
  intros [Hi He Hy Ha Ho] Hu Hfree. fold l in Hi, He, Hy, Ho.
  constructor; cbn [users audio_files].
  - rewrite replace_row_ids. assumption.
  - rewrite (replace_row_emails u); auto.
  - apply (replace_row_yandex_ids u); auto.
  - assumption.
  - rewrite replace_row_ids. assumption.
Qed.

Lemma valid_created :
  valid (working w) ->
  List.filter (matches user_data) l = [] ->
  new_id ∉ (User.id <$> l) ->
  valid {| users := (l ++ [created new_id user_data])%list;
           audio_files := audio_files (working w) |}.
Proof.
  intros [Hi He Hy Ha Ho] Hnone Hfresh. fold l in Hi, He, Hy, Ho.
  assert (Hno : forall v, v ∈ l ->
                  User.yandex_id v <> ud_yandex_id user_data /\
                  User.email v <> ud_email user_data).
  { intros v Hv. pose proof (filter_nil_false _ _ Hnone v Hv) as Hm.
    unfold matches in Hm. apply orb_false_iff in Hm as [H1 H2].
    apply String.eqb_neq in H1, H2. split; assumption. }
  constructor; cbn [users audio_files]; rewrite ?fmap_app; cbn [fmap list_fmap].
  - apply NoDup_app. split; [assumption|]. split; [|apply NoDup_singleton].
    intros x Hx Hx'. apply list_elem_of_singleton in Hx'. subst x. contradiction.
  - apply NoDup_app. split; [assumption|]. split; [|apply NoDup_singleton].
    intros x Hx Hx'. apply list_elem_of_singleton in Hx'. subst x.
    apply list_elem_of_fmap in Hx as (v & Hv1 & Hv2). destruct (Hno v Hv2). cbn in Hv1. congruence.
  - apply NoDup_app. split; [assumption|]. split; [|apply NoDup_singleton].
    intros x Hx Hx'. apply list_elem_of_singleton in Hx'. subst x.
    apply list_elem_of_fmap in Hx as (v & Hv1 & Hv2). destruct (Hno v Hv2). cbn in Hv1. congruence.
  - assumption.
  - eapply Forall_impl; [exact Ho|]. intros f Hf. cbn in Hf. apply elem_of_app. left. assumption.
Qed.

Lemma find_created :
  new_id ∉ (User.id <$> l) ->
  List.find (fun v => bool_decide (User.id v = new_id))
    (l ++ [created new_id user_data])%list
  = Some (created new_id user_data).
Proof.
  intros Hfresh. induction l as [|a l' IH]; cbn.
  - rewrite bool_decide_eq_true_2 by reflexivity. reflexivity.
  - rewrite fmap_cons in Hfresh. apply not_elem_of_cons in Hfresh as [Hne Hfresh].
    rewrite bool_decide_eq_false_2 by congruence. apply IH. assumption.
Qed.

(** C3, as the code has it. On a database that satisfies its
    constraints, for a profile whose token expiry fits the 32-bit
    [Integer] column: (a) when the lookup by subject id or email finds a
    row and no other row holds the profile's subject id, that row gets
    the new access token and expiry, the profile's name and subject id,
    is returned under its own id, and the table keeps its length; (b)
    when the lookup finds a row and another row holds the subject id,
    the commit raises the integrity error and the committed database
    stays as it was; (c) when the lookup finds nothing, exactly one row
    is appended, under the freshly generated id, with an empty refresh
    token, active and not superuser. *)
Theorem get_or_create_user_reconciles :
  constraints_ok (working w) = true ->
  session.in_int32 (ud_token_expires user_data) = true ->
  (forall u,
      session.first (List.filter (matches user_data) l) = Some u ->
      (forall v, v ∈ l -> User.yandex_id v = ud_yandex_id user_data ->
                 User.id v = User.id u) ->
      exists w',
        _get_or_create_user new_id user_data w = (Ok (reconciled user_data u), w') /\
        User.id (reconciled user_data u) = User.id u /\
        users (committed w') = replace_row (reconciled user_data u) l /\
        List.length (users (committed w')) = List.length l /\
        audio_files (committed w') = audio_files (working w)) /\
  (forall u v,
      session.first (List.filter (matches user_data) l) = Some u ->
      v ∈ l -> User.yandex_id v = ud_yandex_id user_data -> User.id v <> User.id u ->
      exists msg w',
        _get_or_create_user new_id user_data w = (Raise (IntegrityError msg), w') /\
        committed w' = committed w) /\
  (session.first (List.filter (matches user_data) l) = None ->
   new_id ∉ (User.id <$> l) ->
   exists w',
     _get_or_create_user new_id user_data w = (Ok (created new_id user_data), w') /\
     users (committed w') = (l ++ [created new_id user_data])%list /\
     audio_files (committed w') = audio_files (working w) /\
     User.refresh_token (created new_id user_data) = Some EmptyString /\
     User.is_active (created new_id user_data) = true /\
     User.is_superuser (created new_id user_data) = false).
Proof.
  intros Hok Hfits. apply constraints_ok_valid in Hok. pose proof Hok as [Hi He Hy Ha Ho].
  fold l in Hi, He, Hy, Ho.
  split; [|split].
  - intros u Hfirst Hfree.
    destruct (head_filter_Some _ _ _ Hfirst) as [Hu _].
    rewrite (get_or_create_user_found u Hi Hfirst).
    pose proof (valid_replace_row u Hok Hu Hfree) as Hv.
    apply constraints_ok_valid in Hv.
    unfold mbind. rewrite (commit_binding_in_range _ _ Hfits).
    unfold session.commit, session.refresh_user, set_committed, set_working, log.
    cbn [working committed disk trace users audio_files]. rewrite Hv.
    cbn [working committed disk trace users audio_files].
    rewrite (find_replace_row u); [|reflexivity|assumption].
    eexists. split; [reflexivity|]. cbn [working committed disk trace users audio_files].
    split; [reflexivity|]. split; [reflexivity|]. split; [|reflexivity].
    unfold replace_row. apply length_fmap.
  - intros u v Hfirst Hv Hyv Hne.
    destruct (head_filter_Some _ _ _ Hfirst) as [Hu _].
    rewrite (get_or_create_user_found u Hi Hfirst).
    unfold mbind. rewrite (commit_binding_in_range _ _ Hfits).
    unfold session.commit, set_committed, set_working, log.
    cbn [working committed disk trace users audio_files].
    destruct (constraints_ok _) eqn:Hc.
    + exfalso. apply constraints_ok_valid in Hc. destruct Hc as [_ _ Hy' _ _].
      cbn [users] in Hy'.
      exact (replace_row_conflict u (reconciled user_data u) l eq_refl Hu v Hv Hyv Hne Hy').
    + eexists _, _. split; reflexivity.
  - intros Hnone Hfresh. apply head_None in Hnone.
    unfold _get_or_create_user, mbind at 1, session.select_users.
    cbn [working log]. fold l. change (fun u0 => _ || _) with (matches user_data).
    rewrite Hnone. cbn [session.first head].
    pose proof (valid_created Hok Hnone Hfresh) as Hv. apply constraints_ok_valid in Hv.
    unfold mbind, session.add_user. rewrite (commit_binding_in_range _ _ Hfits).
    unfold session.commit, session.refresh_user,
      set_committed, set_working, log.
    cbn [working committed disk trace users audio_files User.id]. fold l.
    change {| User.id := new_id; User.email := _; User.name := _; User.yandex_id := _;
              User.is_active := _; User.is_superuser := _; User.access_token := _;
              User.refresh_token := _; User.token_expires := _ |}
      with (created new_id user_data).
    rewrite Hv. cbn [working committed disk trace users audio_files].
    rewrite (find_created Hfresh).
    eexists. split; [reflexivity|]. cbn. repeat split; reflexivity.
Qed.
End Reconciliation.

Lemma get_or_create_user_reconciles_witness :
  (exists w',
      AuthService._get_or_create_user 9%N example_refresh two_users
      = (Ok (reconciled example_refresh alice), w') /\
      users (committed w') = [reconciled example_refresh alice; bob]) /\
  (exists w',
      AuthService._get_or_create_user 9%N example_newcomer two_users
      = (Ok (created 9%N example_newcomer), w') /\
      users (committed w') = [alice; bob; created 9%N example_newcomer]).
Proof.
  pose proof (get_or_create_user_reconciles 9%N example_refresh two_users eq_refl eq_refl)
    as (Hfound & _ & _).
  pose proof (get_or_create_user_reconciles 9%N example_newcomer two_users eq_refl eq_refl)
    as (_ & _ & Hnew).
  split.
  - destruct (Hfound alice) as (w' & Hrun & _ & Hrows & _).
    + reflexivity.
    + intros v Hv Hy. vm_compute in Hv.
      apply elem_of_cons in Hv as [-> | Hv]; [reflexivity|].
      apply list_elem_of_singleton in Hv. subst v. discriminate Hy.
    + exists w'. split; [exact Hrun | exact Hrows].
  - destruct Hnew as (w' & Hrun & Hrows & _).
    + reflexivity.
    + vm_compute. intros Hin.
      apply elem_of_cons in Hin as [Hin | Hin]; [discriminate Hin|].
      apply list_elem_of_singleton in Hin. discriminate Hin.
    + exists w'. split; [exact Hrun | exact Hrows].
Defined.

(** C3 as stated fails where a row is found: the profile carries the
    email of the first user and the subject id of the second; the lookup
    finds the first user, and the call raises the integrity error instead
    of returning the row, leaving the database as it was. *)
Lemma get_or_create_user_found_but_conflict :
  session.first (List.filter (matches example_conflict) (users (working two_users)))
  = Some alice /\
  fst (AuthService._get_or_create_user 9%N example_conflict two_users)
  = Raise (IntegrityError "duplicate key value violates unique constraint") /\
  committed (snd (AuthService._get_or_create_user 9%N example_conflict two_users))
  = committed two_users.
Proof. vm_compute. repeat split. Qed.

(** * The OAuth bridge *)

Section OAuthBridge.
Import AuthService.
Variable provider : Request -> Reply.

Lemma get_yandex_user_info_run access_token w :
  get_yandex_user_info provider access_token w =
  let r1 := tokeninfo_request access_token in
  let r2 := info_request access_token in
  let unavailable :=
    Raise (HTTPException HTTP_503_SERVICE_UNAVAILABLE "Yandex OAuth service unavailable") in
  match provider r1 with
  | NetworkFailure _ => (unavailable, log (EvRequest r1) w)
  | Response st1 text1 js1 =>
      if negb (httpx.is_success st1) then
        (Raise (HTTPException HTTP_401_UNAUTHORIZED ("Yandex API error: " ++ text1)),
         log (EvRequest r1) w)
      else
        match js1 with
        | None => (Raise (ValueError "Expecting value"), log (EvRequest r1) w)
        | Some token_data =>
            match provider r2 with
            | NetworkFailure _ => (unavailable, log (EvRequest r2) (log (EvRequest r1) w))
            | Response st2 text2 js2 =>
                if negb (httpx.is_success st2) then
                  (Raise (HTTPException HTTP_401_UNAUTHORIZED
                            ("Yandex API error: " ++ text2)),
                   log (EvRequest r2) (log (EvRequest r1) w))
                else
                  match js2 with
                  | None => (Raise (ValueError "Expecting value"),
                             log (EvRequest r2) (log (EvRequest r1) w))
                  | Some user_data =>
                      (Ok (<["access_token" := VStr access_token]> (user_data ∪ token_data)),
                       log (EvRequest r2) (log (EvRequest r1) w))
                  end
            end
        end
  end.
Proof.
  unfold get_yandex_user_info, try_except, mbind, httpx.send, httpx.raise_for_status,
    httpx.json, ret, raise.
  cbv zeta.
  destruct (provider (tokeninfo_request access_token)) as [m1 | st1 text1 js1];
    [reflexivity|].
  destruct (httpx.is_success st1); cbn [negb]; [|reflexivity].
  destruct js1 as [token_data|]; [|reflexivity].
  destruct (provider (info_request access_token)) as [m2 | st2 text2 js2];
    [reflexivity|].
  destruct (httpx.is_success st2); cbn [negb]; [|reflexivity].
  destruct js2 as [user_data|]; reflexivity.
Qed.

Lemma get_yandex_user_info_ok access_token w yandex_data w1 :
  get_yandex_user_info provider access_token w = (Ok yandex_data, w1) ->
  w1 = log (EvRequest (info_request access_token))
         (log (EvRequest (tokeninfo_request access_token)) w).
Proof.
  rewrite get_yandex_user_info_run. cbv zeta.
  repeat (match goal with
          | |- context [match ?x with _ => _ end] => destruct x
          end); intros [= _ <-]; reflexivity.
Qed.

Lemma get_or_create_user_integrity new_id user_data w msg w' :
  _get_or_create_user new_id user_data w = (Raise (IntegrityError msg), w') ->
  committed w' = committed w /\ disk w' = disk w /\
  exists pending,
    trace w' = (trace w ++ [EvExecute] ++ pending ++ [EvCommit])%list /\
    (pending = [] \/ pending = [EvAdd]).
Proof.
  unfold _get_or_create_user, mbind at 1, session.select_users.
  destruct (session.first _) as [u|].
  - destruct (negb (String.eqb _ _)); destruct (negb (bool_decide _));
      unfold mbind, session.setattr_user, session.commit_binding, session.commit,
        session.refresh_user, ret, set_working, set_committed, log;
      cbn [working committed disk trace users audio_files];
      (destruct (forallb _ _); [|intros [= ]]);
      (match goal with |- context [constraints_ok ?d] => destruct (constraints_ok d) end;
       [ cbn [working committed disk trace users audio_files];
         destruct (List.find _ _); intros [= ]
       | intros [= <- <-]; cbn [working committed disk trace users audio_files];
         split; [reflexivity|]; split; [reflexivity|];
         exists []; split; [rewrite <- app_assoc; reflexivity | left; reflexivity] ]).
  - unfold mbind, session.add_user, session.commit_binding, session.commit,
      session.refresh_user, ret, set_working, set_committed, log;
      cbn [working committed disk trace users audio_files].
    destruct (forallb _ _); [|intros [= ]].
    match goal with |- context [constraints_ok ?d] => destruct (constraints_ok d) end.
    + cbn [working committed disk trace users audio_files].
      destruct (List.find _ _); intros [= ].
    + intros [= <- <-]; cbn [working committed disk trace users audio_files].
      split; [reflexivity|]. split; [reflexivity|].
      exists [EvAdd]. split; [rewrite <- !app_assoc; reflexivity | right; reflexivity].
Qed.

(** C4. When the insert or update of the user row raises the integrity
    error, [authenticate_user] rolls the session back and fails with
    409: the committed database and the disk are as before the request,
    the session's view is the committed one again, and the trace shows
    the two provider calls, one lookup, one commit and the rollback,
    nothing being tried a second time. *)
Theorem authenticate_user_conflict (token_expires : Z) (new_id : UUID)
    (yandex_token : string)
    (w : World) (yandex_data : dict) (user_data : UserData) (w1 : World)
    (msg : string) (w2 : World) :
  get_yandex_user_info provider yandex_token w = (Ok yandex_data, w1) ->
  prepare_user_data yandex_data yandex_token token_expires = Ok user_data ->
  _get_or_create_user new_id user_data w1 = (Raise (IntegrityError msg), w2) ->
  exists w3,
    authenticate_user provider token_expires new_id yandex_token w
    = (Raise (HTTPException HTTP_409_CONFLICT
                "User already exists with different credentials"), w3) /\
    committed w3 = committed w /\
    working w3 = committed w /\
    disk w3 = disk w /\
    exists pending,
      trace w3 = (trace w ++ [EvRequest (tokeninfo_request yandex_token);
                              EvRequest (info_request yandex_token);
                              EvExecute] ++ pending ++ [EvCommit; EvRollback])%list /\
      (pending = [] \/ pending = [EvAdd]).
Proof.
  intros Hinfo Hprep Hgoc.
  pose proof (get_yandex_user_info_ok _ _ _ _ Hinfo) as Hw1.
  destruct (get_or_create_user_integrity _ _ _ _ _ Hgoc) as (Hc & Hd & pending & Ht & Hp).
  assert (Hkeys : forallb (fun key => bool_decide (is_Some (yandex_data !! key)))
                    ["user_id"; "default_email"] = true).
  { unfold prepare_user_data, getitem in Hprep. cbn [forallb].
    destruct (yandex_data !! "user_id"); [|discriminate Hprep].
    destruct (yandex_data !! "default_email"); [|discriminate Hprep].
    rewrite !bool_decide_eq_true_2 by eauto. reflexivity. }
  unfold authenticate_user, try_except, mbind at 1.
  rewrite Hinfo, Hkeys. cbn [negb].
  unfold mbind at 1, lift. rewrite Hprep. rewrite Hgoc.
  unfold mbind, session.rollback, raise. cbn [is_HTTPException].
  eexists. split; [reflexivity|].
  unfold set_working, log. cbn [working committed disk trace].
  rewrite Hc, Hd, Ht, Hw1. unfold log. cbn [working committed disk trace].
  repeat (split; [reflexivity|]).
  exists pending. split; [|assumption].
  rewrite <- !app_assoc. reflexivity.
Qed.
End OAuthBridge.

Lemma authenticate_user_conflict_witness :
  exists w3,
    AuthService.authenticate_user provider_conflicting 1000 9%N "new" two_users
    = (Raise (HTTPException HTTP_409_CONFLICT
                "User already exists with different credentials"), w3) /\
    committed w3 = committed two_users /\
    working w3 = committed two_users.
Proof.
  destruct (authenticate_user_conflict provider_conflicting 1000 9%N "new" two_users
              (<["access_token" := VStr "new"]>
                 ({["default_email" := VStr "a@b.com"; "real_name" := VStr "Alice"]}
                    ∪ {["user_id" := VStr "43"]}))
              {| ud_yandex_id := "43"; ud_email := "a@b.com"; ud_name := "Alice";
                 ud_access_token := "new"; ud_token_expires := 1000 |}
              (log (EvRequest (AuthService.info_request "new"))
                 (log (EvRequest (AuthService.tokeninfo_request "new")) two_users))
              "duplicate key value violates unique constraint"
              (snd (AuthService._get_or_create_user 9%N
                      {| ud_yandex_id := "43"; ud_email := "a@b.com"; ud_name := "Alice";
                         ud_access_token := "new";
                         ud_token_expires := 1000 |}
                      (log (EvRequest (AuthService.info_request "new"))
                         (log (EvRequest (AuthService.tokeninfo_request "new")) two_users)))))
    as (w3 & Hrun & Hc & Hw & _).
  - vm_compute. reflexivity.
  - vm_compute. reflexivity.
  - vm_compute. reflexivity.
  - exists w3. split; [exact Hrun|]. split; [exact Hc | exact Hw].
Defined.

(** * Outbound calls to the provider *)

Section ProviderCalls.
Import AuthService.
Variable provider : Request -> Reply.

(** C9, as the code has it. (a) [get_yandex_user_info] touches neither
    the database nor the disk and sends the token-info request, then at
    most the user-info request, each once and each with a timeout of 10
    seconds; a network failure of either one ends the call with 503,
    the first without the second being sent. (b) [yandex_callback] of
    [routes/yandex.py] sends the token exchange exactly once, and a
    network failure of it ends the call with 400. *)
Theorem provider_calls (access_token code client_id client_secret : string) (w : World) :
  let r1 := tokeninfo_request access_token in
  let r2 := info_request access_token in
  let r3 := YandexRoute.token_request code client_id client_secret in
  let unavailable :=
    Raise (HTTPException HTTP_503_SERVICE_UNAVAILABLE "Yandex OAuth service unavailable") in
  let info := get_yandex_user_info provider access_token w in
  let callback := YandexRoute.yandex_callback provider code client_id client_secret w in
  (timeout r1 = Some 10 /\ timeout r2 = Some 10 /\
   committed (snd info) = committed w /\ working (snd info) = working w /\
   disk (snd info) = disk w /\
   (trace (snd info) = (trace w ++ [EvRequest r1])%list \/
    trace (snd info) = (trace w ++ [EvRequest r1; EvRequest r2])%list) /\
   (forall msg, provider r1 = NetworkFailure msg ->
                fst info = unavailable /\
                trace (snd info) = (trace w ++ [EvRequest r1])%list) /\
   (forall msg, trace (snd info) = (trace w ++ [EvRequest r1; EvRequest r2])%list ->
                provider r2 = NetworkFailure msg ->
                fst info = unavailable)) /\
  (trace (snd callback) = (trace w ++ [EvRequest r3])%list /\
   forall msg, provider r3 = NetworkFailure msg ->
               fst callback = Raise (HTTPException 400 ("Yandex OAuth error: " ++ msg))).
Proof.
  cbv zeta. split.
  - rewrite get_yandex_user_info_run. cbv zeta.
    split; [reflexivity|]. split; [reflexivity|].
    assert (Hneq : forall (l : list Event) (a b : Event),
               (l ++ [a])%list <> (l ++ [a; b])%list).
    { intros l a b Heq. apply app_inv_head in Heq. discriminate Heq. }
    destruct (provider (tokeninfo_request access_token)) as [m1 | st1 text1 js1].
    { cbn. repeat (split; [reflexivity|]). split; [left; reflexivity|].
      split; [intros; split; reflexivity|].
      intros msg Htr. exfalso. exact (Hneq _ _ _ Htr). }
    destruct (httpx.is_success st1); cbn [negb].
    2:{ cbn. repeat (split; [reflexivity|]). split; [left; reflexivity|].
        split; [intros msg [=]|].
        intros msg Htr. exfalso. exact (Hneq _ _ _ Htr). }
    destruct js1 as [token_data|].
    2:{ cbn. repeat (split; [reflexivity|]). split; [left; reflexivity|].
        split; [intros msg [=]|].
        intros msg Htr. exfalso. exact (Hneq _ _ _ Htr). }
    destruct (provider (info_request access_token)) as [m2 | st2 text2 js2].
    { cbn. repeat (split; [reflexivity|]).
      split; [right; rewrite <- app_assoc; reflexivity|].
      split; [intros msg [=]|]. intros; reflexivity. }
    destruct (httpx.is_success st2); cbn [negb]; [destruct js2|];
      cbn; repeat (split; [reflexivity|]);
      (split; [right; rewrite <- app_assoc; reflexivity|]);
      (split; [intros msg [=]|]); intros msg _ [=].
  - unfold YandexRoute.yandex_callback, try_except, mbind, requests.post,
      requests.raise_for_status, requests.json, ret, raise.
    destruct (provider (YandexRoute.token_request code client_id client_secret))
      as [m | st text js].
    + cbn. split; [reflexivity|]. intros msg [= ->]. reflexivity.
    + destruct ((400 <=? st) && (st <? 600)); [|destruct js]; cbn;
        (split; [reflexivity|]); intros msg [=].
Qed.
End ProviderCalls.

Lemma provider_calls_witness :
  fst (AuthService.get_yandex_user_info provider_down "token" empty_world)
  = Raise (HTTPException HTTP_503_SERVICE_UNAVAILABLE "Yandex OAuth service unavailable") /\
  trace (snd (AuthService.get_yandex_user_info provider_down "token" empty_world))
  = [EvRequest (AuthService.tokeninfo_request "token")] /\
  fst (YandexRoute.yandex_callback provider_down "code" "id" "secret" empty_world)
  = Raise (HTTPException 400 "Yandex OAuth error: connection refused").
Proof.
  pose proof (provider_calls provider_down "token" "code" "id" "secret" empty_world)
    as [(_ & _ & _ & _ & _ & _ & Hfirst & _) (_ & Hcallback)].
  destruct (Hfirst "connection refused" eq_refl) as [Hres Htrace].
  split; [exact Hres|]. split; [exact Htrace|].
  exact (Hcallback "connection refused" eq_refl).
Defined.

(** C9 as stated fails on the token exchange of [routes/yandex.py]: with
    the provider unreachable the one request that is sent carries no
    timeout, and the failure is answered with 400, not with 503. *)
Lemma token_exchange_no_timeout_and_400 :
  trace (snd (YandexRoute.yandex_callback provider_down "code" "id" "secret" empty_world))
  = [EvRequest (YandexRoute.token_request "code" "id" "secret")] /\
  timeout (YandexRoute.token_request "code" "id" "secret") = None /\
  fst (YandexRoute.yandex_callback provider_down "code" "id" "secret" empty_world)
  = Raise (HTTPException 400 "Yandex OAuth error: connection refused") /\
  (400 <> HTTP_503_SERVICE_UNAVAILABLE).
Proof. vm_compute. repeat split; discriminate. Qed.

(** * The audio file service *)

Lemma filter_all_false {A} (p : A -> bool) (l : list A) :
  (forall x, x ∈ l -> p x = false) -> List.filter p l = [].
Proof.
  induction l as [|a l IH]; intros Hall; [reflexivity|]. cbn.
  rewrite (Hall a) by (left; reflexivity). apply IH. intros x Hx. apply Hall. right. assumption.
Qed.

Lemma selects_spec file_id user_id f :
  selects file_id user_id f = true <-> selected file_id user_id f.
Proof.
  unfold selects, selected. rewrite andb_true_iff, !bool_decide_eq_true. reflexivity.
Qed.

Lemma select_none file_id user_id (l : list AudioFile.t) :
  (forall f, f ∈ l -> ~ selected file_id user_id f) ->
  List.filter (selects file_id user_id) l = [].
Proof.
  intros Hnone. apply filter_all_false. intros f Hf.
  destruct (selects file_id user_id f) eqn:Hs; [|reflexivity].
  apply selects_spec in Hs. destruct (Hnone f Hf Hs).
Qed.

Lemma select_one file_id user_id (l : list AudioFile.t) f :
  NoDup (AudioFile.id <$> l) -> f ∈ l -> selected file_id user_id f ->
  List.filter (selects file_id user_id) l = [f].
Proof.
  intros Hnd Hf Hsel. induction l as [|a l IH]; [inversion Hf|].
  rewrite fmap_cons in Hnd. apply NoDup_cons in Hnd as [Hnotin Hnd]. cbn.
  apply elem_of_cons in Hf as [<- | Hf].
  - rewrite (proj2 (selects_spec _ _ _) Hsel). f_equal.
    apply select_none. intros g Hg [Hgid _]. apply Hnotin.
    destruct Hsel as [Hfid _]. rewrite Hfid, <- Hgid. apply list_elem_of_fmap. eauto.
  - destruct (selects file_id user_id a) eqn:Ha; [|apply IH; assumption].
    exfalso. apply selects_spec in Ha as [Haid _]. apply Hnotin.
    destruct Hsel as [Hfid _]. rewrite Haid, <- Hfid. apply list_elem_of_fmap. eauto.
Qed.

(** The schema asks for [file_size], [content_type], [created_at] and
    [updated_at], which no row of [AudioFile] has. *)
Lemma from_orm_raises (f : AudioFile.t) :
  AudioFileInDB.from_orm f
  = Raise (ValidationError
             "file_size, content_type, created_at, updated_at: Field required").
Proof. reflexivity. Qed.

Lemma get_audio_file_run file_id user_id w :
  AudioService.get_audio_file file_id user_id w
  = (match session.scalar_one_or_none
             (List.filter (selects file_id user_id) (audio_files (working w))) with
     | Ok (Some file) =>
         match AudioFileInDB.from_orm file with
         | Ok m => Ok (Some m)
         | Raise e => Raise e
         end
     | Ok None => Ok None
     | Raise e => Raise e
     end, log EvExecute w).
Proof.
  unfold AudioService.get_audio_file, mbind, session.select_audio_files, lift, ret.
  change (fun f => _ && _) with (selects file_id user_id).
  destruct (session.scalar_one_or_none _) as [[file|]|e]; [|reflexivity|reflexivity].
  destruct (AudioFileInDB.from_orm file); reflexivity.
Qed.

Lemma get_audio_file_none file_id user_id w :
  (forall f, f ∈ audio_files (working w) -> ~ selected file_id user_id f) ->
  AudioService.get_audio_file file_id user_id w = (Ok None, log EvExecute w).
Proof.
  intros Hnone. rewrite get_audio_file_run, (select_none _ _ _ Hnone). reflexivity.
Qed.

(** C5. [get_audio_file] only reads; it answers [None] whenever no row
    has both the id and the owner, so a missing id and an id owned by
    someone else give the same answer; and it answers with metadata only
    if some row has both the id and the owner. For that row the
    response schema cannot be filled from the model's columns, and the
    call ends with the validation error instead of the metadata. *)
Theorem get_audio_file_owner_scoped (file_id owner : UUID) (w : World) :
  let r := AudioService.get_audio_file file_id owner w in
  snd r = log EvExecute w /\
  ((forall f, f ∈ audio_files (working w) -> ~ selected file_id owner f) ->
   fst r = Ok None) /\
  (forall m, fst r = Ok (Some m) ->
             exists f, f ∈ audio_files (working w) /\ selected file_id owner f) /\
  (NoDup (AudioFile.id <$> audio_files (working w)) ->
   forall f, f ∈ audio_files (working w) -> selected file_id owner f ->
             exists msg, fst r = Raise (ValidationError msg)) /\
  (forall w2,
      (forall f, f ∈ audio_files (working w) -> AudioFile.id f <> file_id) ->
      NoDup (AudioFile.id <$> audio_files (working w2)) ->
      (exists g, g ∈ audio_files (working w2) /\
                 AudioFile.id g = file_id /\ AudioFile.user_id g <> owner) ->
      fst r = Ok None /\
      fst (AudioService.get_audio_file file_id owner w2) = fst r).
Proof.
  cbv zeta. rewrite get_audio_file_run. cbn [fst snd].
  split; [reflexivity|]. split; [|split; [|split]].
  - intros Hnone. rewrite (select_none _ _ _ Hnone). reflexivity.
  - intros m Hm.
    destruct (List.filter _ _) as [|x [|y rest]] eqn:Hf; cbn [session.scalar_one_or_none] in Hm;
      [discriminate Hm| |discriminate Hm].
    exists x.
    assert (Hin : In x (List.filter (selects file_id owner) (audio_files (working w))))
      by (rewrite Hf; left; reflexivity).
    apply filter_In in Hin as [Hin Hs].
    split; [apply list_elem_of_In; assumption | apply selects_spec; assumption].
  - intros Hnd f Hf Hsel. rewrite (select_one _ _ _ f Hnd Hf Hsel).
    cbn [session.scalar_one_or_none]. rewrite from_orm_raises. eauto.
  - intros w2 Hmissing Hnd (g & Hg & Hgid & Hgowner).
    rewrite select_none by (intros f Hf [Hfid _]; exact (Hmissing f Hf Hfid)).
    split; [reflexivity|].
    rewrite get_audio_file_none; [reflexivity|].
    intros f Hf [Hfid Hfo]. apply Hgowner.
    assert (f = g) as <-; [|assumption].
    eapply NoDup_fmap_eq; eauto. congruence.
Qed.

Lemma get_audio_file_owner_scoped_witness :
  fst (AudioService.get_audio_file 8%N 2%N library) = Ok None /\
  fst (AudioService.get_audio_file 7%N 2%N library) = Ok None /\
  exists msg,
    fst (AudioService.get_audio_file 7%N 1%N library) = Raise (ValidationError msg).
Proof.
  pose proof (get_audio_file_owner_scoped 8%N 2%N library) as (_ & Hmissing & _).
  pose proof (get_audio_file_owner_scoped 7%N 2%N library) as (_ & Hother & _).
  pose proof (get_audio_file_owner_scoped 7%N 1%N library) as (_ & _ & _ & Hown & _).
  split; [|split].
  - apply Hmissing. intros f Hf [Hid _]. vm_compute in Hf.
    apply list_elem_of_singleton in Hf. subst f. discriminate Hid.
  - apply Hother. intros f Hf [_ Ho]. vm_compute in Hf.
    apply list_elem_of_singleton in Hf. subst f. discriminate Ho.
  - apply (Hown ltac:(vm_compute; apply NoDup_singleton) alice_song).
    + vm_compute. left.
    + split; reflexivity.
Defined.

Lemma delete_audio_file_run file_id user_id w :
  AudioService.delete_audio_file file_id user_id w
  = match session.scalar_one_or_none
            (List.filter (selects file_id user_id) (audio_files (working w))) with
    | Ok (Some file) =>
        mbind (try_except (os.unlink (AudioFile.file_path file))
                 (fun exc =>
                    match exc with
                    | OSError e => emit (EvPrint ("Error deleting file: " ++ e))
                    | _ => raise exc
                    end))
          (fun _ => mbind (session.delete_audio_file (AudioFile.id file))
                      (fun _ => mbind session.commit (fun _ => ret true)))
          (log EvExecute w)
    | Ok None => (Ok false, log EvExecute w)
    | Raise e => (Raise e, log EvExecute w)
    end.
Proof.
  unfold AudioService.delete_audio_file, mbind at 1, session.select_audio_files.
  change (fun f => _ && _) with (selects file_id user_id).
  unfold mbind at 1, lift.
  destruct (session.scalar_one_or_none _) as [[file|]|e]; reflexivity.
Qed.

(** C10. When no row has both the id and the owner, [delete_audio_file]
    answers [False] and the only effect is the lookup: the committed
    database, the session's view and the disk are unchanged, and the
    trace gains neither an unlink, nor a delete, nor a commit; in
    particular a row with that id owned by someone else stays in the
    table and its bytes stay on disk. *)
Theorem delete_audio_file_frame (file_id owner : UUID) (w : World) :
  (forall f, f ∈ audio_files (working w) -> ~ selected file_id owner f) ->
  let r := AudioService.delete_audio_file file_id owner w in
  fst r = Ok false /\
  committed (snd r) = committed w /\
  working (snd r) = working w /\
  disk (snd r) = disk w /\
  trace (snd r) = (trace w ++ [EvExecute])%list /\
  (forall g, g ∈ audio_files (committed w) -> AudioFile.id g = file_id ->
             g ∈ audio_files (committed (snd r)) /\
             files (disk (snd r)) !! AudioFile.file_path g
             = files (disk w) !! AudioFile.file_path g).
Proof.
  intros Hnone. cbv zeta. rewrite delete_audio_file_run, (select_none _ _ _ Hnone).
  cbn. repeat split; auto.
Qed.

Lemma delete_audio_file_frame_witness :
  fst (AudioService.delete_audio_file 7%N 2%N library) = Ok false /\
  committed (snd (AudioService.delete_audio_file 7%N 2%N library)) = committed library /\
  disk (snd (AudioService.delete_audio_file 7%N 2%N library)) = disk library.
Proof.
  destruct (delete_audio_file_frame 7%N 2%N library) as (Hr & Hc & _ & Hd & _).
  - intros f Hf [_ Ho]. vm_compute in Hf.
    apply list_elem_of_singleton in Hf. subst f. discriminate Ho.
  - split; [exact Hr|]. split; [exact Hc | exact Hd].
Defined.

Lemma valid_delete d pk :
  valid d ->
  valid {| users := users d;
           audio_files := List.filter (fun f => negb (bool_decide (AudioFile.id f = pk)))
                            (audio_files d) |}.
Proof.
  intros [Hi He Hy Ha Ho]. constructor; cbn [users audio_files]; try assumption.
  - induction (audio_files d) as [|a l IH]; [constructor|].
    rewrite fmap_cons in Ha. apply NoDup_cons in Ha as [Hnotin Ha].
    apply Forall_cons in Ho as [_ Ho]. cbn.
    destruct (negb _); [|apply IH; assumption].
    rewrite fmap_cons. apply NoDup_cons. split; [|apply IH; assumption].
    intros Hin. apply Hnotin. apply list_elem_of_fmap in Hin as (x & -> & Hx).
    apply list_elem_of_In, filter_In in Hx as [Hx _].
    apply list_elem_of_fmap. exists x. split; [reflexivity | apply list_elem_of_In; assumption].
  - apply Forall_forall. intros f Hf.
    apply list_elem_of_In, filter_In in Hf as [Hf _].
    rewrite Forall_forall in Ho. apply Ho. apply list_elem_of_In. assumption.
Qed.

(** C8. For a file of the caller, on a database that satisfies its
    constraints: [delete_audio_file] answers [True]; the trace is the
    lookup, the unlink of the file's path, a printed message exactly
    when the unlink failed, then the row's deletion and the commit,
    whether the unlink failed or not; the row is gone from the committed
    table and the other rows stay; [get_audio_file] on the same id and
    owner then answers [None]; and the path is absent from the disk
    unless the unlink was refused, the other paths being untouched. *)
Theorem delete_audio_file_owned (file_id owner : UUID) (w : World) (f : AudioFile.t) :
  constraints_ok (working w) = true ->
  f ∈ audio_files (working w) ->
  selected file_id owner f ->
  exists w' printed,
    AudioService.delete_audio_file file_id owner w = (Ok true, w') /\
    trace w' = (trace w ++ [EvExecute; EvUnlink (AudioFile.file_path f)] ++ printed
                  ++ [EvDelete; EvCommit])%list /\
    (printed = [] <-> files (disk w) !! AudioFile.file_path f <> None /\
                      AudioFile.file_path f ∉ undeletable (disk w)) /\
    (printed = [] \/ exists m, printed = [EvPrint ("Error deleting file: " ++ m)]) /\
    audio_files (committed w')
    = List.filter (fun g => negb (bool_decide (AudioFile.id g = file_id)))
        (audio_files (working w)) /\
    users (committed w') = users (working w) /\
    working w' = committed w' /\
    fst (AudioService.get_audio_file file_id owner w') = Ok None /\
    (AudioFile.file_path f ∉ undeletable (disk w) ->
     files (disk w') !! AudioFile.file_path f = None) /\
    (forall p, p <> AudioFile.file_path f -> files (disk w') !! p = files (disk w) !! p).
Proof.
  intros Hok Hf Hsel. apply constraints_ok_valid in Hok.
  pose proof (valid_audio_ids _ Hok) as Hnd.
  pose proof (valid_delete _ (AudioFile.id f) Hok) as Hv. apply constraints_ok_valid in Hv.
  assert (Hid : AudioFile.id f = file_id) by apply Hsel.
  rewrite delete_audio_file_run, (select_one _ _ _ f Hnd Hf Hsel).
  cbn [session.scalar_one_or_none].
  assert (Hafter : forall w' : World,
             audio_files (working w')
             = List.filter (fun g => negb (bool_decide (AudioFile.id g = file_id)))
                 (audio_files (working w)) ->
             fst (AudioService.get_audio_file file_id owner w') = Ok None).
  { intros w' Hw'. rewrite get_audio_file_none; [reflexivity|].
    intros g Hg [Hgid _]. rewrite Hw' in Hg.
    apply list_elem_of_In, filter_In in Hg as [_ Hg].
    rewrite bool_decide_eq_true_2 in Hg by assumption. discriminate Hg. }
  unfold mbind, try_except, os.unlink, emit, raise, session.delete_audio_file, session.commit,
    ret, set_working, set_committed, set_disk, log.
  cbn [working committed disk trace users audio_files files undeletable].
  destruct (files (disk w) !! AudioFile.file_path f) as [bytes|] eqn:Hfile.
  - destruct (decide (AudioFile.file_path f ∈ undeletable (disk w))) as [Hu|Hu].
    + rewrite (bool_decide_eq_true_2 _ Hu).
      cbn [working committed disk trace users audio_files files undeletable].
      rewrite Hid in *. rewrite Hv.
      eexists _, [EvPrint ("Error deleting file: " ++ "Permission denied")].
      split; [reflexivity|]. cbn [working committed disk trace users audio_files].
      split; [rewrite <- !app_assoc; reflexivity|].
      split; [split; [discriminate | intros [_ Hno]; contradiction]|].
      split; [right; eexists; reflexivity|].
      split; [reflexivity|]. split; [reflexivity|]. split; [reflexivity|].
      split; [apply Hafter; reflexivity|].
      split; [intros Hno; contradiction | reflexivity].
    + rewrite (bool_decide_eq_false_2 _ Hu).
      cbn [working committed disk trace users audio_files files undeletable].
      rewrite Hid in *. rewrite Hv.
      eexists _, []. split; [reflexivity|].
      cbn [working committed disk trace users audio_files files undeletable].
      split; [rewrite <- !app_assoc; reflexivity|].
      split; [split; [intros _; split; [congruence | assumption] | reflexivity]|].
      split; [left; reflexivity|].
      split; [reflexivity|]. split; [reflexivity|]. split; [reflexivity|].
      split; [apply Hafter; reflexivity|].
      split; [intros _; apply lookup_delete_eq|].
      intros p Hp. apply lookup_delete_ne. congruence.
  - cbn [working committed disk trace users audio_files files undeletable].
    rewrite Hid in *. rewrite Hv.
    eexists _, [EvPrint ("Error deleting file: " ++ "No such file or directory")].
    split; [reflexivity|]. cbn [working committed disk trace users audio_files].
    split; [rewrite <- !app_assoc; reflexivity|].
    split; [split; [discriminate | intros [Hno _]; congruence]|].
    split; [right; eexists; reflexivity|].
    split; [reflexivity|]. split; [reflexivity|]. split; [reflexivity|].
    split; [apply Hafter; reflexivity|].
    split; [intros _; assumption | reflexivity].
Qed.

Lemma delete_audio_file_owned_witness :
  exists w',
    AudioService.delete_audio_file 7%N 1%N library = (Ok true, w') /\
    audio_files (committed w') = [] /\
    fst (AudioService.get_audio_file 7%N 1%N w') = Ok None /\
    files (disk w') !! "static/audio_files/5.mp3" = None.
Proof.
  destruct (delete_audio_file_owned 7%N 1%N library alice_song)
    as (w' & printed & Hrun & _ & _ & _ & Hrows & _ & _ & Hget & Hgone & _).
  - reflexivity.
  - vm_compute. left.
  - split; reflexivity.
  - exists w'. split; [exact Hrun|]. split; [exact Hrows|]. split; [exact Hget|].
    apply Hgone. vm_compute. discriminate.
Defined.

(** * The upload route *)

Section Upload.
Import AudioRoute.
Variables (settings : Settings.t) (filename_uuid row_id : UUID)
          (file : UploadFile.t) (current_user : User.t) (w : World).

(** The first statement of the route reads [settings.audio]. *)
Lemma upload_audio_file_run :
  upload_audio_file settings filename_uuid row_id file current_user w
  = (Raise (AttributeError "'Settings' object has no attribute 'audio'"), w).
Proof.
  unfold upload_audio_file, settings_audio, mbind at 1, lift.
  rewrite getattr_Settings_undeclared by undeclared. reflexivity.
Qed.

(** C6, as the code has it. Whatever the size and the content type of
    the upload, the route ends with the [AttributeError] of
    [settings.audio] before either check is made: the answer is neither
    400 nor 413. The world is left exactly as it was, so nothing is
    written to the storage directory and no row is added. *)
Theorem upload_never_rejected_with_400_or_413 :
  let r := upload_audio_file settings filename_uuid row_id file current_user w in
  fst r = Raise (AttributeError "'Settings' object has no attribute 'audio'") /\
  snd r = w /\
  (forall status_code detail, fst r <> Raise (HTTPException status_code detail)).
Proof.
  cbv zeta. rewrite upload_audio_file_run. cbn [fst snd].
  split; [reflexivity|]. split; [reflexivity|]. intros; discriminate.
Qed.

(** C7, as the code has it. Whatever the upload, accepted type and size
    included, the route returns no metadata, and the owner's list is
    afterwards what it was before. *)
Theorem upload_never_succeeds :
  let r := upload_audio_file settings filename_uuid row_id file current_user w in
  (forall metadata, fst r <> Ok metadata) /\
  disk (snd r) = disk w /\
  audio_files (committed (snd r)) = audio_files (committed w) /\
  AudioService.get_user_audio_files (User.id current_user) (snd r)
  = AudioService.get_user_audio_files (User.id current_user) w.
Proof.
  cbv zeta. rewrite upload_audio_file_run. cbn [fst snd].
  split; [intros; discriminate|]. repeat split; reflexivity.
Qed.
End Upload.

Lemma upload_never_rejected_with_400_or_413_witness :
  fst (AudioRoute.upload_audio_file example_settings 5%N 8%N oversize_song alice library)
  = Raise (AttributeError "'Settings' object has no attribute 'audio'") /\
  fst (AudioRoute.upload_audio_file example_settings 5%N 8%N oversize_text alice library)
  = Raise (AttributeError "'Settings' object has no attribute 'audio'") /\
  snd (AudioRoute.upload_audio_file example_settings 5%N 8%N oversize_song alice library)
  = library.
Proof.
  pose proof (upload_never_rejected_with_400_or_413 example_settings 5%N 8%N oversize_song
                alice library) as (Hsong & Hworld & _).
  pose proof (upload_never_rejected_with_400_or_413 example_settings 5%N 8%N oversize_text
                alice library) as (Htext & _).
  split; [exact Hsong|]. split; [exact Htext | exact Hworld].
Defined.

Lemma upload_never_succeeds_witness :
  (forall metadata,
      fst (AudioRoute.upload_audio_file example_settings 5%N 8%N song alice library)
      <> Ok metadata) /\
  fst (AudioService.get_user_audio_files 2%N
         (snd (AudioRoute.upload_audio_file example_settings 5%N 8%N song bob library)))
  = Ok [].
Proof.
  split.
  - exact (proj1 (upload_never_succeeds example_settings 5%N 8%N song alice library)).
  - pose proof (upload_never_succeeds example_settings 5%N 8%N song bob library)
      as (_ & _ & _ & Hlist).
    change (User.id bob) with 2%N in Hlist. rewrite Hlist. reflexivity.
Defined.

(** * Further properties of the OAuth bridge *)

Section AuthenticateOutcomes.
Import AuthService.
Variable provider : Request -> Reply.

Lemma get_or_create_user_not_found new_id user_data w :
  List.filter (matches user_data) (users (working w)) = [] ->
  _get_or_create_user new_id user_data w
  = mbind (session.add_user (created new_id user_data))
      (fun _ => mbind (session.commit_binding [ud_token_expires user_data])
                  (fun _ => session.refresh_user new_id))
      (log EvExecute w).
Proof.
  intros Hnone. unfold _get_or_create_user, mbind at 1, session.select_users.
  cbn [working log]. change (fun u0 => _ || _) with (matches user_data).
  rewrite Hnone. reflexivity.
Qed.

Lemma get_or_create_user_outcomes new_id user_data w :
  constraints_ok (working w) = true ->
  (exists u w', _get_or_create_user new_id user_data w = (Ok u, w') /\
                u ∈ users (committed w')) \/
  (exists msg w', _get_or_create_user new_id user_data w = (Raise (IntegrityError msg), w') /\
                  committed w' = committed w) \/
  (exists msg w', _get_or_create_user new_id user_data w = (Raise (DBAPIError msg), w') /\
                  committed w' = committed w).
Proof.
  intros Hok. apply constraints_ok_valid in Hok. pose proof (valid_user_ids _ Hok) as Hi.
  destruct (session.in_int32 (ud_token_expires user_data)) eqn:Hfits.
  - destruct (session.first (List.filter (matches user_data) (users (working w))))
      as [u|] eqn:Hfirst.
    + destruct (head_filter_Some _ _ _ Hfirst) as [Hu _].
      rewrite (get_or_create_user_found new_id user_data w u Hi Hfirst).
      unfold mbind. rewrite (commit_binding_in_range _ _ Hfits).
      unfold session.commit, session.refresh_user, set_committed, set_working, log.
      cbn [working committed disk trace users audio_files].
      destruct (constraints_ok _).
      * left. cbn [working committed disk trace users audio_files].
        rewrite (find_replace_row u); [|reflexivity|assumption].
        eexists _, _. split; [reflexivity|]. cbn [committed users].
        apply (elem_of_replace_row u); [reflexivity | assumption | left; reflexivity].
      * right. left. eexists _, _. split; reflexivity.
    + apply head_None in Hfirst.
      rewrite (get_or_create_user_not_found new_id user_data w Hfirst).
      unfold mbind, session.add_user. rewrite (commit_binding_in_range _ _ Hfits).
      unfold session.commit, session.refresh_user, set_committed, set_working, log.
      cbn [working committed disk trace users audio_files User.id].
      destruct (constraints_ok _) eqn:Hc.
      * left. cbn [working committed disk trace users audio_files].
        apply constraints_ok_valid in Hc. destruct Hc as [Hi' _ _ _ _]. cbn [users] in Hi'.
        rewrite fmap_app in Hi'. apply NoDup_app in Hi' as (_ & Hfresh & _).
        assert (Hnew : new_id ∉ (User.id <$> users (working w))).
        { intros Hin. apply (Hfresh new_id Hin). cbn. left. }
        rewrite (find_created new_id user_data w Hnew).
        eexists _, _. split; [reflexivity|]. cbn [committed users].
        apply elem_of_app. right. left.
      * right. left. eexists _, _. split; reflexivity.
  - right. right.
    destruct (session.first (List.filter (matches user_data) (users (working w))))
      as [u|] eqn:Hfirst.
    + rewrite (get_or_create_user_found new_id user_data w u Hi Hfirst).
      unfold mbind. rewrite (commit_binding_out_of_range _ _ Hfits).
      eexists _, _. split; reflexivity.
    + apply head_None in Hfirst.
      rewrite (get_or_create_user_not_found new_id user_data w Hfirst).
      unfold mbind, session.add_user. rewrite (commit_binding_out_of_range _ _ Hfits).
      eexists _, _. split; reflexivity.
Qed.

Lemma get_yandex_user_info_frame access_token w :
  committed (snd (get_yandex_user_info provider access_token w)) = committed w /\
  working (snd (get_yandex_user_info provider access_token w)) = working w /\
  disk (snd (get_yandex_user_info provider access_token w)) = disk w.
Proof.
  rewrite get_yandex_user_info_run. cbv zeta.
  repeat (match goal with
          | |- context [match ?x with _ => _ end] => destruct x
          end); repeat split.
Qed.

Lemma get_yandex_user_info_raises access_token w exc w1 :
  get_yandex_user_info provider access_token w = (Raise exc, w1) ->
  (exists detail, exc = HTTPException HTTP_401_UNAUTHORIZED detail) \/
  exc = HTTPException HTTP_503_SERVICE_UNAVAILABLE "Yandex OAuth service unavailable" \/
  exc = ValueError "Expecting value".
Proof.
  rewrite get_yandex_user_info_run. cbv zeta.
  repeat (match goal with
          | |- context [match ?x with _ => _ end] => destruct x
          end); intros [= <- _]; eauto.
Qed.

Lemma prepare_user_data_raises yandex_data yandex_token token_expires exc :
  prepare_user_data yandex_data yandex_token token_expires = Raise exc ->
  is_HTTPException exc = false.
Proof.
  unfold prepare_user_data, getitem, bind_string.
  repeat (match goal with
          | |- context [match ?x with _ => _ end] => destruct x; cbn [bind]
          end); intros [= <-]; reflexivity.
Qed.

Lemma authenticate_user_cases (token_expires : Z) (new_id : UUID)
    (yandex_token : string) (w : World) :
  constraints_ok (working w) = true ->
  exists r w',
    authenticate_user provider token_expires new_id yandex_token w = (r, w') /\
    ((exists u, r = Ok u /\ u ∈ users (committed w')) \/
     (exists status_code detail,
         r = Raise (HTTPException status_code detail) /\
         status_code ∈ [400; 401; 409; 500; 503] /\
         committed w' = committed w)).
Proof.
  intros Hok.
  pose proof (get_yandex_user_info_frame yandex_token w) as (Hc & Hw & _).
  destruct (get_yandex_user_info provider yandex_token w) as [[yandex_data | exc] w1] eqn:Hinfo;
    cbn [fst snd] in Hc, Hw.
  - destruct (forallb (fun key => bool_decide (is_Some (yandex_data !! key)))
                ["user_id"; "default_email"]) eqn:Hkeys.
    + destruct (prepare_user_data yandex_data yandex_token token_expires)
        as [user_data | exc] eqn:Hprep.
      * rewrite <- Hw in Hok.
        destruct (get_or_create_user_outcomes new_id user_data w1 Hok)
          as [(u & w' & Hrun & Hu)
             | [(msg & w' & Hrun & Hsame) | (msg & w' & Hrun & Hsame)]].
        -- eexists _, _. split.
           { unfold authenticate_user, try_except, mbind at 1. rewrite Hinfo, Hkeys.
             cbn [negb]. unfold mbind at 1, lift. rewrite Hprep, Hrun. reflexivity. }
           left. exists u. split; [reflexivity | assumption].
        -- eexists _, _. split.
           { unfold authenticate_user, try_except, mbind at 1. rewrite Hinfo, Hkeys.
             cbn [negb]. unfold mbind at 1, lift. rewrite Hprep, Hrun. reflexivity. }
           right. cbn. eexists _, _. split; [reflexivity|]. split; [set_solver|]. congruence.
        -- eexists _, _. split.
           { unfold authenticate_user, try_except, mbind at 1. rewrite Hinfo, Hkeys.
             cbn [negb]. unfold mbind at 1, lift. rewrite Hprep, Hrun. reflexivity. }
           right. cbn. eexists _, _. split; [reflexivity|]. split; [set_solver|]. congruence.
      * eexists _, _. split.
        { unfold authenticate_user, try_except, mbind at 1. rewrite Hinfo, Hkeys.
          cbn [negb]. unfold mbind at 1, lift. rewrite Hprep.
          rewrite (prepare_user_data_raises _ _ _ _ Hprep). reflexivity. }
        right. cbn. eexists _, _. split; [reflexivity|]. split; [set_solver | assumption].
    + eexists _, _. split.
      { unfold authenticate_user, try_except, mbind at 1. rewrite Hinfo, Hkeys. reflexivity. }
      right. cbn. eexists _, _. split; [reflexivity|]. split; [set_solver | assumption].
  - destruct (get_yandex_user_info_raises _ _ _ _ Hinfo) as [[d ->] | [-> | ->]].
    + eexists _, _. split.
      { unfold authenticate_user, try_except, mbind at 1. rewrite Hinfo. reflexivity. }
      right. cbn. eexists _, _. split; [reflexivity|]. split; [set_solver | assumption].
    + eexists _, _. split.
      { unfold authenticate_user, try_except, mbind at 1. rewrite Hinfo. reflexivity. }
      right. cbn. eexists _, _. split; [reflexivity|]. split; [set_solver | assumption].
    + eexists _, _. split.
      { unfold authenticate_user, try_except, mbind at 1. rewrite Hinfo. reflexivity. }
      right. cbn. eexists _, _. split; [reflexivity|]. split; [set_solver | assumption].
Qed.

(** X4. Starting from a database that satisfies its constraints,
    [authenticate_user] either returns a user that is then a row of the
    committed table, or raises an [HTTPException] whose status is one of
    400, 401, 409, 500 and 503 and leaves the committed database exactly
    as it was; no other exception escapes. *)
Theorem authenticate_user_outcomes (token_expires : Z) (new_id : UUID)
    (yandex_token : string) (w : World) :
  constraints_ok (working w) = true ->
  let r := authenticate_user provider token_expires new_id yandex_token w in
  (exists u, fst r = Ok u /\ u ∈ users (committed (snd r))) \/
  (exists status_code detail,
      fst r = Raise (HTTPException status_code detail) /\
      status_code ∈ [400; 401; 409; 500; 503] /\
      committed (snd r) = committed w).
Proof.
  intros Hok. cbv zeta.
  destruct (authenticate_user_cases token_expires new_id yandex_token w Hok)
    as (r & w' & -> & Hcases).
  exact Hcases.
Qed.

(** X5. When the provider's answers lack the subject id or the email,
    [authenticate_user] fails with 400 "Incomplete Yandex user data"
    right after the two provider calls: the session is neither queried
    nor rolled back. *)
Theorem authenticate_user_incomplete_profile (token_expires : Z) (new_id : UUID)
    (yandex_token : string) (w : World) (yandex_data : dict) (w1 : World) :
  get_yandex_user_info provider yandex_token w = (Ok yandex_data, w1) ->
  yandex_data !! "user_id" = None \/ yandex_data !! "default_email" = None ->
  authenticate_user provider token_expires new_id yandex_token w
  = (Raise (HTTPException HTTP_400_BAD_REQUEST "Incomplete Yandex user data"),
     log (EvRequest (info_request yandex_token))
       (log (EvRequest (tokeninfo_request yandex_token)) w)).
Proof.
  intros Hinfo Hmissing.
  pose proof (get_yandex_user_info_ok _ _ _ _ _ Hinfo) as ->.
  unfold authenticate_user, try_except, mbind at 1. rewrite Hinfo.
  assert (Hkeys : forallb (fun key => bool_decide (is_Some (yandex_data !! key)))
                    ["user_id"; "default_email"] = false).
  { cbn [forallb]. destruct Hmissing as [-> | ->].
    - rewrite bool_decide_eq_false_2 by (intros [? [=]]). reflexivity.
    - rewrite (bool_decide_eq_false_2 (is_Some None)) by (intros [? [=]]).
      rewrite andb_false_r. reflexivity. }
  rewrite Hkeys. reflexivity.
Qed.
End AuthenticateOutcomes.

Lemma authenticate_user_outcomes_witness :
  exists u,
    fst (AuthService.authenticate_user provider_newcomer 1000 9%N "new" two_users) = Ok u /\
    u ∈ users (committed (snd (AuthService.authenticate_user provider_newcomer 1000 9%N
                                 "new" two_users))).
Proof.
  destruct (authenticate_user_outcomes provider_newcomer 1000 9%N "new" two_users eq_refl)
    as [Hok | (status_code & detail & Hraise & _)].
  - exact Hok.
  - vm_compute in Hraise. discriminate Hraise.
Defined.

Lemma authenticate_user_incomplete_profile_witness :
  fst (AuthService.authenticate_user provider_without_email 1000 9%N "new" two_users)
  = Raise (HTTPException HTTP_400_BAD_REQUEST "Incomplete Yandex user data").
Proof.
  rewrite (authenticate_user_incomplete_profile provider_without_email 1000 9%N "new"
             two_users
             (<["access_token" := VStr "new"]>
                ({["real_name" := VStr "Carol"]} ∪ {["user_id" := VStr "44"]}))
             (log (EvRequest (AuthService.info_request "new"))
                (log (EvRequest (AuthService.tokeninfo_request "new")) two_users))).
  - reflexivity.
  - vm_compute. reflexivity.
  - right. vm_compute. reflexivity.
Defined.

Section ProfileName.
Import AuthService.

Lemma before_at_spec (s : string) :
  ("@"%char ∉ chars (before_at s)) /\
  exists rest, s = before_at s ++ rest /\
               (rest = EmptyString \/ exists tail, rest = String "@"%char tail).
Proof.
  induction s as [|c s [IHno (rest & IHeq & IHrest)]]; cbn.
  - split; [apply not_elem_of_nil|]. exists EmptyString. split; [reflexivity | left; reflexivity].
  - destruct (Ascii.eqb_spec c "@"%char) as [-> | Hne]; cbn.
    + split; [apply not_elem_of_nil|]. exists (String "@"%char s).
      split; [reflexivity | right; eauto].
    + split.
      * apply not_elem_of_cons. split; [congruence | assumption].
      * exists rest. split; [|assumption].
        change (String c s = String c (before_at s ++ rest)). f_equal. exact IHeq.
Qed.

Lemma truthy_str (s : string) : s <> EmptyString -> truthy (VStr s) = true.
Proof.
  intros Hne. cbn. destruct (String.eqb_spec s EmptyString); [contradiction | reflexivity].
Qed.

(** X6. The name stored for a profile with string subject id and email
    is the provider's real name when that is a non-empty string,
    otherwise the display name when that is one, otherwise the part of
    the email before its first "@" (the whole email if it has none);
    empty or missing names count as absent. *)
Theorem profile_name_fallback (yandex_data : dict) (yandex_token : string)
    (token_expires : Z) (subject email : string) :
  yandex_data !! "user_id" = Some (VStr subject) ->
  yandex_data !! "default_email" = Some (VStr email) ->
  let stored_name :=
    match prepare_user_data yandex_data yandex_token token_expires with
    | Ok user_data => Some (ud_name user_data)
    | Raise _ => None
    end in
  (forall real, yandex_data !! "real_name" = Some (VStr real) -> real <> EmptyString ->
                stored_name = Some real) /\
  (forall display, truthy (get yandex_data "real_name") = false ->
                   yandex_data !! "display_name" = Some (VStr display) ->
                   display <> EmptyString ->
                   stored_name = Some display) /\
  (truthy (get yandex_data "real_name") = false ->
   truthy (get yandex_data "display_name") = false ->
   stored_name = Some (before_at email) /\
   ("@"%char ∉ chars (before_at email)) /\
   exists rest, email = before_at email ++ rest /\
                (rest = EmptyString \/ exists tail, rest = String "@"%char tail)).
Proof.
  intros Hid Hemail. cbv zeta. unfold prepare_user_data, getitem. rewrite Hid, Hemail.
  cbn [bind]. split; [|split].
  - intros real Hreal Hne. unfold get at 1 2. rewrite Hreal. cbn [from_option id].
    rewrite (truthy_str real Hne). reflexivity.
  - intros display Hreal Hdisplay Hne. rewrite Hreal.
    unfold get at 1 2. rewrite Hdisplay. cbn [from_option id].
    rewrite (truthy_str display Hne). reflexivity.
  - intros Hreal Hdisplay. rewrite Hreal, Hdisplay. split; [reflexivity|].
    apply before_at_spec.
Qed.
End ProfileName.

Lemma profile_name_fallback_witness :
  match AuthService.prepare_user_data
          {["user_id" := VStr "44"; "default_email" := VStr "carol@b.com";
            "real_name" := VStr EmptyString]} "tok" 1000 with
  | Ok user_data => Some (ud_name user_data)
  | Raise _ => None
  end = Some "carol".
Proof.
  refine (proj1 (proj2 (proj2
            (profile_name_fallback
               {["user_id" := VStr "44"; "default_email" := VStr "carol@b.com";
                 "real_name" := VStr EmptyString]} "tok" 1000 "44" "carol@b.com"
               eq_refl eq_refl)) _ _)).
  - reflexivity.
  - reflexivity.
Defined.

Section Reauthentication.
Import AuthService.

Lemma matches_same_keys (first_profile later_profile : UserData) (u : User.t) :
  ud_yandex_id later_profile = ud_yandex_id first_profile ->
  ud_email later_profile = ud_email first_profile ->
  matches later_profile u = matches first_profile u.
Proof. intros Hy He. unfold matches. rewrite Hy, He. reflexivity. Qed.

Lemma filter_app_last {A} (p : A -> bool) (l : list A) (x : A) :
  List.filter p l = [] -> p x = true -> List.filter p (l ++ [x])%list = [x].
Proof. intros Hl Hx. rewrite List.filter_app, Hl. cbn. rewrite Hx. reflexivity. Qed.

Lemma replace_row_last (u u' : User.t) (l : list User.t) :
  User.id u' = User.id u ->
  User.id u ∉ (User.id <$> l) ->
  replace_row u' (l ++ [u])%list = (l ++ [u'])%list.
Proof.
  intros Hid Hfresh. unfold replace_row. rewrite fmap_app. f_equal.
  - rewrite <- (list_fmap_id l) at 2. apply list_fmap_ext. intros i v Hv. cbn.
    rewrite bool_decide_eq_false_2; [reflexivity|].
    intros Heq. apply Hfresh. rewrite <- Hid, <- Heq.
    apply list_elem_of_fmap. exists v. split; [reflexivity|].
    eapply list_elem_of_lookup_2; eassumption.
  - cbn. rewrite bool_decide_eq_true_2 by congruence. reflexivity.
Qed.

(** X7. First login, then a second one. On a database that satisfies
    its constraints, with token expiries that fit the 32-bit [Integer]
    column, a profile that matches no row creates a row under the fresh
    id; a later profile with the same subject id and email (and any
    name, token and such expiry) is then reconciled with that very
    row: the call returns it under the id of the first login, with the
    later token, expiry and name, and the table has grown by one row in
    all, whatever id was drawn for the second call. *)
Theorem login_again_reuses_row (first_id second_id : UUID)
    (first_profile later_profile : UserData) (w : World) :
  constraints_ok (working w) = true ->
  List.filter (matches first_profile) (users (working w)) = [] ->
  first_id ∉ (User.id <$> users (working w)) ->
  session.in_int32 (ud_token_expires first_profile) = true ->
  session.in_int32 (ud_token_expires later_profile) = true ->
  ud_yandex_id later_profile = ud_yandex_id first_profile ->
  ud_email later_profile = ud_email first_profile ->
  exists w1 w2,
    _get_or_create_user first_id first_profile w
    = (Ok (created first_id first_profile), w1) /\
    _get_or_create_user second_id later_profile w1
    = (Ok (reconciled later_profile (created first_id first_profile)), w2) /\
    User.id (reconciled later_profile (created first_id first_profile)) = first_id /\
    users (committed w2)
    = (users (working w) ++ [reconciled later_profile (created first_id first_profile)])%list.
Proof.
  intros Hok Hnone Hfresh Hfits1 Hfits2 Hy He.
  apply constraints_ok_valid in Hok.
  pose proof (valid_created first_id first_profile w Hok Hnone Hfresh) as Hv1.
  pose proof Hv1 as Hv1'. apply constraints_ok_valid in Hv1'.
  (* the first call *)
  assert (Hrun1 : exists w1,
             _get_or_create_user first_id first_profile w = (Ok (created first_id first_profile), w1) /\
             working w1 = {| users := (users (working w) ++ [(created first_id first_profile)])%list; audio_files := audio_files (working w) |}).
  { rewrite (get_or_create_user_not_found first_id first_profile w Hnone).
    unfold mbind, session.add_user. rewrite (commit_binding_in_range _ _ Hfits1).
    unfold session.commit, session.refresh_user, set_committed, set_working, log.
    cbn [working committed disk trace users audio_files User.id].
    rewrite Hv1'. cbn [working committed disk trace users audio_files].
    rewrite (find_created first_id first_profile w Hfresh).
    eexists. split; reflexivity. }
  destruct Hrun1 as (w1 & Hrun1 & Hw1).
  exists w1.
  (* the second call finds the created row *)
  assert (Hmatch : matches later_profile (created first_id first_profile) = true).
  { unfold matches, created. cbn. rewrite Hy, String.eqb_refl. reflexivity. }
  assert (Hfirst : session.first (List.filter (matches later_profile) (users (working w1)))
                   = Some (created first_id first_profile)).
  { rewrite Hw1. cbn [users]. rewrite (filter_app_last _ _ (created first_id first_profile)); [reflexivity | | assumption].
    rewrite <- Hnone. apply List.filter_ext. intros u.
    apply matches_same_keys; assumption. }
  assert (Hids1 : NoDup (User.id <$> users (working w1))).
  { rewrite Hw1. exact (valid_user_ids _ Hv1). }
  assert (Hfree : forall v, v ∈ users (working w1) ->
                            User.yandex_id v = ud_yandex_id later_profile ->
                            User.id v = User.id (created first_id first_profile)).
  { intros v Hv Hyv. rewrite Hw1 in Hv. cbn [users] in Hv.
    apply elem_of_app in Hv as [Hv | Hv].
    - exfalso. pose proof (filter_nil_false _ _ Hnone v Hv) as Hm.
      unfold matches in Hm. rewrite <- Hy, <- Hyv, String.eqb_refl in Hm. discriminate Hm.
    - apply list_elem_of_singleton in Hv. subst v. reflexivity. }
  assert (Hc1 : (created first_id first_profile) ∈ users (working w1)).
  { rewrite Hw1. cbn [users]. apply elem_of_app. right. left. }
  assert (Hv2 : valid {| users := replace_row (reconciled later_profile (created first_id first_profile)) (users (working w1));
                         audio_files := audio_files (working w1) |}).
  { apply valid_replace_row; [rewrite Hw1; assumption | assumption | assumption]. }
  apply constraints_ok_valid in Hv2.
  eexists. split; [exact Hrun1|]. split.
  - rewrite (get_or_create_user_found second_id later_profile w1 (created first_id first_profile) Hids1 Hfirst).
    unfold mbind. rewrite (commit_binding_in_range _ _ Hfits2).
    unfold session.commit, session.refresh_user, set_committed, set_working, log.
    cbn [working committed disk trace users audio_files]. rewrite Hv2.
    cbn [working committed disk trace users audio_files].
    rewrite (find_replace_row (created first_id first_profile)); [reflexivity | reflexivity | assumption].
  - split; [reflexivity|]. cbn [snd committed users].
    rewrite Hw1. cbn [users]. apply replace_row_last; [reflexivity | assumption].
Qed.
End Reauthentication.

Lemma login_again_reuses_row_witness :
  exists w1 w2,
    AuthService._get_or_create_user 9%N example_newcomer two_users
    = (Ok (created 9%N example_newcomer), w1) /\
    AuthService._get_or_create_user 10%N
      {| ud_yandex_id := "44"; ud_email := "c@b.com"; ud_name := "Carol C.";
         ud_access_token := "newer"; ud_token_expires := 300 |} w1
    = (Ok (reconciled {| ud_yandex_id := "44"; ud_email := "c@b.com"; ud_name := "Carol C.";
                         ud_access_token := "newer"; ud_token_expires := 300 |}
             (created 9%N example_newcomer)), w2) /\
    List.length (users (committed w2)) = 3%nat.
Proof.
  destruct (login_again_reuses_row 9%N 10%N example_newcomer
              {| ud_yandex_id := "44"; ud_email := "c@b.com"; ud_name := "Carol C.";
                 ud_access_token := "newer"; ud_token_expires := 300 |} two_users)
    as (w1 & w2 & Hrun1 & Hrun2 & _ & Hrows).
  - reflexivity.
  - reflexivity.
  - vm_compute. intros Hin.
    apply elem_of_cons in Hin as [Hin | Hin]; [discriminate Hin|].
    apply list_elem_of_singleton in Hin. discriminate Hin.
  - reflexivity.
  - reflexivity.
  - reflexivity.
  - reflexivity.
  - exists w1, w2. split; [exact Hrun1|]. split; [exact Hrun2|].
    rewrite Hrows. reflexivity.
Defined.

Section ProviderAnswers.
Variable provider : Request -> Reply.


End ProviderAnswers.


(** * Further properties of the audio file service *)

Lemma from_orm_each_run (l : list AudioFile.t) :
  AudioService.from_orm_each l
  = match l with
    | [] => Ok []
    | _ :: _ => Raise (ValidationError
                         "file_size, content_type, created_at, updated_at: Field required")
    end.
Proof. destruct l; reflexivity. Qed.

(** X10. [get_user_audio_files] only reads. For an owner without stored
    files it returns the empty list; for an owner with at least one
    stored file it returns no list: the first row cannot fill the
    response schema, and the call ends with the validation error. *)
Theorem get_user_audio_files_outcomes (user_id : UUID) (w : World) :
  let r := AudioService.get_user_audio_files user_id w in
  snd r = log EvExecute w /\
  ((forall f, f ∈ audio_files (working w) -> AudioFile.user_id f <> user_id) ->
   fst r = Ok []) /\
  (forall f, f ∈ audio_files (working w) -> AudioFile.user_id f = user_id ->
             exists msg, fst r = Raise (ValidationError msg)).
Proof.
  cbv zeta.
  unfold AudioService.get_user_audio_files, mbind, session.select_audio_files, lift.
  rewrite from_orm_each_run. cbn [fst snd working log].
  split; [reflexivity|]. split.
  - intros Hnone. rewrite filter_all_false; [reflexivity|].
    intros f Hf. apply bool_decide_eq_false_2. apply Hnone. assumption.
  - intros f Hf Hu.
    destruct (List.filter _ _) eqn:Hfilter; [|eauto].
    exfalso. pose proof (filter_nil_false _ _ Hfilter f Hf) as Hno.
    cbv beta in Hno. rewrite bool_decide_eq_true_2 in Hno by assumption. discriminate Hno.
Qed.

Lemma get_user_audio_files_outcomes_witness :
  fst (AudioService.get_user_audio_files 2%N library) = Ok [] /\
  exists msg,
    fst (AudioService.get_user_audio_files 1%N library) = Raise (ValidationError msg).
Proof.
  pose proof (get_user_audio_files_outcomes 2%N library) as (_ & Hnone & _).
  pose proof (get_user_audio_files_outcomes 1%N library) as (_ & _ & Hsome).
  split.
  - apply Hnone. intros f Hf. vm_compute in Hf.
    apply list_elem_of_singleton in Hf. subst f. discriminate.
  - apply (Hsome alice_song); [vm_compute; left | reflexivity].
Defined.

(** X11. [save_audio_file] reads [settings.AUDIO_UPLOAD_DIR] to build
    the path of the stored file, and [Settings] declares no such field:
    whatever the owner and the upload, the call ends with the
    [AttributeError] of that read, before a byte is written and before
    the session is used. *)
Theorem save_audio_file_raises (settings : Settings.t) (filename_uuid row_id user_id : UUID)
    (file : UploadFile.t) (w : World) :
  AudioService.save_audio_file settings filename_uuid row_id user_id file w
  = (Raise (AttributeError "'Settings' object has no attribute 'AUDIO_UPLOAD_DIR'"), w).
Proof.
  unfold AudioService.save_audio_file, try_finally, mbind at 1, lift. cbv zeta.
  rewrite getattr_Settings_undeclared by undeclared. reflexivity.
Qed.

Section DeleteAndDownload.
Variables (file_id owner : UUID) (w : World) (f : AudioFile.t).
Hypothesis Hok : constraints_ok (working w) = true.
Hypothesis Hf : f ∈ audio_files (working w).
Hypothesis Hsel : selected file_id owner f.

Lemma delete_audio_file_owned_state :
  exists w1,
    AudioService.delete_audio_file file_id owner w = (Ok true, w1) /\
    audio_files (working w1)
    = List.filter (fun g => negb (bool_decide (AudioFile.id g = file_id)))
        (audio_files (working w)) /\
    users (working w1) = users (working w) /\
    committed w1 = working w1.
Proof.
  apply constraints_ok_valid in Hok.
  pose proof (valid_audio_ids _ Hok) as Hnd.
  pose proof (valid_delete _ (AudioFile.id f) Hok) as Hv. apply constraints_ok_valid in Hv.
  assert (Hid : AudioFile.id f = file_id) by apply Hsel.
  rewrite delete_audio_file_run, (select_one _ _ _ f Hnd Hf Hsel).
  cbn [session.scalar_one_or_none].
  unfold mbind, try_except, os.unlink, emit, raise, session.delete_audio_file, session.commit,
    ret, set_working, set_committed, set_disk, log.
  cbn [working committed disk trace users audio_files files undeletable].
  rewrite Hid in *.
  destruct (files (disk w) !! AudioFile.file_path f) as [bytes|];
    [destruct (bool_decide (AudioFile.file_path f ∈ undeletable (disk w)))|];
    cbn [working committed disk trace users audio_files files undeletable];
    rewrite Hv; eexists; (split; [reflexivity|]);
    cbn [working committed disk trace users audio_files]; repeat split.
Qed.

Lemma nothing_selected_after_delete (w1 : World) :
  audio_files (working w1)
  = List.filter (fun g => negb (bool_decide (AudioFile.id g = file_id)))
      (audio_files (working w)) ->
  forall g, g ∈ audio_files (working w1) -> ~ selected file_id owner g.
Proof.
  intros Hw1 g Hg [Hgid _]. rewrite Hw1 in Hg.
  apply list_elem_of_In, filter_In in Hg as [_ Hg].
  rewrite bool_decide_eq_true_2 in Hg by assumption. discriminate Hg.
Qed.

(** X14. Deleting twice. After the owner has deleted a file, a second
    [delete_audio_file] for the same id and owner answers [False] and
    does nothing but look the row up: database and disk stay as the
    first call left them. *)
Theorem delete_audio_file_twice :
  exists w1,
    AudioService.delete_audio_file file_id owner w = (Ok true, w1) /\
    AudioService.delete_audio_file file_id owner w1 = (Ok false, log EvExecute w1).
Proof.
  destruct delete_audio_file_owned_state as (w1 & Hrun & Hrows & _ & _).
  exists w1. split; [exact Hrun|].
  rewrite delete_audio_file_run.
  rewrite (select_none _ _ _ (nothing_selected_after_delete w1 Hrows)). reflexivity.
Qed.

(** X16. The delete route, then the download route. For a file of the
    caller the delete route completes without error, and a download of
    the same id by the same caller is then answered with 404 "Audio file
    not found". *)
Theorem delete_route_then_download (current_user : User.t) :
  User.id current_user = owner ->
  exists w1,
    AudioRoutes.delete_audio_file file_id current_user w = (Ok tt, w1) /\
    fst (AudioRoutes.download_audio_file file_id current_user w1)
    = Raise (HTTPException HTTP_404_NOT_FOUND "Audio file not found").
Proof.
  intros Hcu.
  destruct delete_audio_file_owned_state as (w1 & Hrun & Hrows & _ & _).
  exists w1. split.
  - unfold AudioRoutes.delete_audio_file, mbind. rewrite Hcu, Hrun. reflexivity.
  - unfold AudioRoutes.download_audio_file, mbind. rewrite Hcu.
    rewrite (get_audio_file_none _ _ _ (nothing_selected_after_delete w1 Hrows)).
    reflexivity.
Qed.
End DeleteAndDownload.

Lemma delete_audio_file_twice_witness :
  exists w1,
    AudioService.delete_audio_file 7%N 1%N library = (Ok true, w1) /\
    AudioService.delete_audio_file 7%N 1%N w1 = (Ok false, log EvExecute w1).
Proof.
  apply (delete_audio_file_twice 7%N 1%N library alice_song).
  - reflexivity.
  - vm_compute. left.
  - split; reflexivity.
Defined.

Lemma delete_route_then_download_witness :
  exists w1,
    AudioRoutes.delete_audio_file 7%N alice library = (Ok tt, w1) /\
    fst (AudioRoutes.download_audio_file 7%N alice w1)
    = Raise (HTTPException HTTP_404_NOT_FOUND "Audio file not found").
Proof.
  apply (delete_route_then_download 7%N 1%N library alice_song).
  - reflexivity.
  - vm_compute. left.
  - split; reflexivity.
  - reflexivity.
Defined.

(** X15. The download route never changes database or disk and never
    serves a file: it answers 404 when no row has both the id and the
    caller as owner (so a missing id and someone else's file look the
    same), and for the caller's own row it ends with the validation
    error of [get_audio_file], before the disk is looked at. *)
Theorem download_audio_file_outcomes (file_id : UUID) (current_user : User.t) (w : World) :
  let r := AudioRoutes.download_audio_file file_id current_user w in
  snd r = log EvExecute w /\
  (forall response, fst r <> Ok response) /\
  ((forall f, f ∈ audio_files (working w) -> ~ selected file_id (User.id current_user) f) ->
   fst r = Raise (HTTPException HTTP_404_NOT_FOUND "Audio file not found")) /\
  (NoDup (AudioFile.id <$> audio_files (working w)) ->
   forall f, f ∈ audio_files (working w) -> selected file_id (User.id current_user) f ->
             exists msg, fst r = Raise (ValidationError msg)).
Proof.
  cbv zeta. unfold AudioRoutes.download_audio_file, mbind.
  rewrite get_audio_file_run.
  split; [|split; [|split]].
  - destruct (session.scalar_one_or_none _) as [[file|]|e]; reflexivity.
  - intros response.
    destruct (session.scalar_one_or_none _) as [[file|]|e]; discriminate.
  - intros Hnone. rewrite (select_none _ _ _ Hnone). reflexivity.
  - intros Hnd f Hf Hsel. rewrite (select_one _ _ _ f Hnd Hf Hsel).
    cbn [session.scalar_one_or_none]. rewrite from_orm_raises. eauto.
Qed.

Lemma download_audio_file_outcomes_witness :
  fst (AudioRoutes.download_audio_file 7%N bob library)
  = Raise (HTTPException HTTP_404_NOT_FOUND "Audio file not found") /\
  exists msg,
    fst (AudioRoutes.download_audio_file 7%N alice library) = Raise (ValidationError msg).
Proof.
  pose proof (download_audio_file_outcomes 7%N bob library) as (_ & _ & Hother & _).
  pose proof (download_audio_file_outcomes 7%N alice library) as (_ & _ & _ & Hown).
  split.
  - apply Hother. intros f Hf [_ Ho]. vm_compute in Hf.
    apply list_elem_of_singleton in Hf. subst f. discriminate Ho.
  - apply (Hown ltac:(vm_compute; apply NoDup_singleton) alice_song).
    + vm_compute. left.
    + split; reflexivity.
Defined.

(** * The routes of [app/routes/users.py] *)

Section CurrentUser.
Context `{Jose}.
Import UsersRoutes.

(** X17. [get_current_user] never yields a user. Its first step calls
    [verify_token], which for every token ends with the
    [AttributeError] of [settings.SECRET_KEY]; the dependency ends with
    that error before the result is awaited and before a session is
    opened, the world being left untouched. *)
Theorem get_current_user_never_returns (settings : Settings.t) (utcnow : Z)
    (token : string) (w : World) :
  get_current_user settings utcnow token w
  = (Raise (AttributeError "'Settings' object has no attribute 'SECRET_KEY'"), w).
Proof.
  unfold get_current_user. cbv zeta. unfold mbind at 1, mbind at 1, lift.
  rewrite verify_token_run. reflexivity.
Qed.
End CurrentUser.

Lemma NoDup_fmap_filter {A B} (g : A -> B) (p : A -> bool) (l : list A) :
  NoDup (g <$> l) -> NoDup (g <$> List.filter p l).
Proof.
  induction l as [|a l IH]; intros Hnd; [constructor|].
  rewrite fmap_cons in Hnd. apply NoDup_cons in Hnd as [Hnotin Hnd]. cbn.
  destruct (p a); [|apply IH; assumption].
  rewrite fmap_cons. apply NoDup_cons. split; [|apply IH; assumption].
  intros Hin. apply Hnotin. apply list_elem_of_fmap in Hin as (x & -> & Hx).
  apply list_elem_of_In, filter_In in Hx as [Hx _].
  apply list_elem_of_fmap. exists x. split; [reflexivity | apply list_elem_of_In; assumption].
Qed.

Section DeleteUser.
Import UsersRoutes.
Variables (user_id : UUID) (current_user : User.t) (w : World).
Hypothesis Hok : constraints_ok (committed w) = true.

Let remaining : list User.t :=
  List.filter (fun u => negb (bool_decide (User.id u = user_id))) (users (committed w)).

Lemma delete_user_run (u : User.t) :
  u ∈ users (committed w) -> User.id u = user_id ->
  delete_user user_id current_user w
  = (let w1 := log EvCommit
                 (log EvDelete
                    (set_working {| users := remaining;
                                    audio_files := audio_files (committed w) |}
                       (log EvExecute (set_working (committed w) w)))) in
     if constraints_ok (working w1)
     then (Ok {["ok" := VBool true]}, set_working (working w1) (set_committed (working w1) w1))
     else (Raise (IntegrityError "duplicate key value violates unique constraint"),
           set_working (committed w) w1)).
Proof.
  intros Hu Hid. apply constraints_ok_valid in Hok.
  assert (Hsel : List.filter (fun v => bool_decide (User.id v = user_id)) (users (committed w))
                 = [u]).
  { clear remaining. pose proof (valid_user_ids _ Hok) as Hnd.
    induction (users (committed w)) as [|a l IH]; [inversion Hu|].
    rewrite fmap_cons in Hnd. apply NoDup_cons in Hnd as [Hnotin Hnd]. cbn.
    apply elem_of_cons in Hu as [<- | Hu].
    - rewrite bool_decide_eq_true_2 by assumption. f_equal.
      apply filter_all_false. intros x Hx. apply bool_decide_eq_false_2.
      intros Hxid. apply Hnotin. rewrite Hid, <- Hxid. apply list_elem_of_fmap. eauto.
    - rewrite bool_decide_eq_false_2; [apply IH; assumption|].
      intros Haid. apply Hnotin. rewrite Haid, <- Hid. apply list_elem_of_fmap. eauto. }
  unfold delete_user, AsyncSessionLocal.async_with, AsyncSessionLocal.enter,
    AsyncSessionLocal.close, mbind, session.select_users.
  cbn [working set_working log]. rewrite Hsel. cbn [session.first head].
  unfold AsyncSessionLocal.delete_user, session.commit, ret, set_working, set_committed, log.
  cbn [working committed disk trace users audio_files]. rewrite Hid. fold remaining.
  destruct (constraints_ok _); reflexivity.
Qed.

(** X18. [delete_user] works in a session of its own, on a database
    that satisfies its constraints. An id that no user has is answered
    with 404 and nothing changes. A user who still owns an audio file
    cannot be deleted: the commit raises the integrity error of the
    foreign key and the committed database is unchanged. A user who owns
    no file is removed, and only that row is. *)
Theorem delete_user_outcomes :
  ((forall u, u ∈ users (committed w) -> User.id u <> user_id) ->
   fst (delete_user user_id current_user w)
   = Raise (HTTPException HTTP_404_NOT_FOUND "User not found") /\
   committed (snd (delete_user user_id current_user w)) = committed w) /\
  (forall u f,
      u ∈ users (committed w) -> User.id u = user_id ->
      f ∈ audio_files (committed w) -> AudioFile.user_id f = user_id ->
      (exists msg, fst (delete_user user_id current_user w) = Raise (IntegrityError msg)) /\
      committed (snd (delete_user user_id current_user w)) = committed w /\
      working (snd (delete_user user_id current_user w)) = committed w) /\
  (forall u,
      u ∈ users (committed w) -> User.id u = user_id ->
      (forall f, f ∈ audio_files (committed w) -> AudioFile.user_id f <> user_id) ->
      fst (delete_user user_id current_user w) = Ok {["ok" := VBool true]} /\
      users (committed (snd (delete_user user_id current_user w))) = remaining /\
      audio_files (committed (snd (delete_user user_id current_user w)))
      = audio_files (committed w)).
Proof.
  pose proof Hok as Hvalid. apply constraints_ok_valid in Hvalid.
  split; [|split].
  - intros Hnone.
    assert (Hsel : List.filter (fun v => bool_decide (User.id v = user_id))
                     (users (committed w)) = []).
    { apply filter_all_false. intros x Hx. apply bool_decide_eq_false_2. auto. }
    unfold delete_user, AsyncSessionLocal.async_with, AsyncSessionLocal.enter,
      AsyncSessionLocal.close, mbind, session.select_users.
    cbn [working set_working log]. rewrite Hsel. split; reflexivity.
  - intros u f Hu Hid Hf Hfu. rewrite (delete_user_run u Hu Hid). cbv zeta.
    unfold set_working, set_committed, log.
    cbn [working committed disk trace users audio_files].
    destruct (constraints_ok {| users := remaining;
                                audio_files := audio_files (committed w) |}) eqn:Hc.
    + exfalso. apply constraints_ok_valid in Hc. destruct Hc as [_ _ _ _ Ho].
      cbn [users audio_files] in Ho. rewrite Forall_forall in Ho.
      specialize (Ho f Hf). apply list_elem_of_fmap in Ho as (x & Hx & Hin).
      apply list_elem_of_In, filter_In in Hin as [_ Hin].
      rewrite bool_decide_eq_true_2 in Hin by congruence. discriminate Hin.
    + cbn. split; [eauto|]. split; [reflexivity|]. destruct (committed w); reflexivity.
  - intros u Hu Hid Hnofile. rewrite (delete_user_run u Hu Hid). cbv zeta.
    unfold set_working, set_committed, log.
    cbn [working committed disk trace users audio_files].
    assert (Hv : valid {| users := remaining; audio_files := audio_files (committed w) |}).
    { destruct Hvalid as [Hi He Hy Ha Ho]. constructor; cbn [users audio_files].
      - apply NoDup_fmap_filter. assumption.
      - apply NoDup_fmap_filter. assumption.
      - apply NoDup_fmap_filter. assumption.
      - assumption.
      - rewrite Forall_forall in *. intros f Hf.
        specialize (Ho f Hf). apply list_elem_of_fmap in Ho as (x & Hx & Hin).
        apply list_elem_of_fmap. exists x. split; [assumption|].
        apply list_elem_of_In, filter_In. split; [apply list_elem_of_In; assumption|].
        rewrite bool_decide_eq_false_2; [reflexivity|].
        rewrite <- Hx. apply Hnofile. assumption. }
    apply constraints_ok_valid in Hv. rewrite Hv. cbn. repeat split.
Qed.
End DeleteUser.

Lemma delete_user_outcomes_witness :
  (exists msg, fst (UsersRoutes.delete_user 1%N bob library) = Raise (IntegrityError msg)) /\
  committed (snd (UsersRoutes.delete_user 1%N bob library)) = committed library /\
  fst (UsersRoutes.delete_user 2%N alice library) = Ok {["ok" := VBool true]} /\
  users (committed (snd (UsersRoutes.delete_user 2%N alice library))) = [alice].
Proof.
  pose proof (delete_user_outcomes 1%N bob library eq_refl) as (_ & Hfiles & _).
  pose proof (delete_user_outcomes 2%N alice library eq_refl) as (_ & _ & Hfree).
  destruct (Hfiles alice alice_song) as (Hraise & Hsame & _).
  - vm_compute. left.
  - reflexivity.
  - vm_compute. left.
  - reflexivity.
  - destruct (Hfree bob) as (Hdone & Hrows & _).
    + vm_compute. right. left.
    + reflexivity.
    + intros f Hf Hu. vm_compute in Hf.
      apply list_elem_of_singleton in Hf. subst f. discriminate Hu.
    + split; [exact Hraise|]. split; [exact Hsame|]. split; [exact Hdone | exact Hrows].
Defined.

Section UpdateUserMe.
Import UsersRoutes.

Lemma merge_user_loaded (loaded modified : User.t) :
  User.id modified = User.id loaded ->
  User.yandex_id modified = User.yandex_id loaded ->
  User.access_token modified = User.access_token loaded ->
  User.refresh_token modified = User.refresh_token loaded ->
  User.token_expires modified = User.token_expires loaded ->
  AsyncSessionLocal.merge_user loaded modified loaded = modified.
Proof.
  destruct loaded, modified. cbn. intros -> -> -> -> ->.
  unfold AsyncSessionLocal.merge_user. cbn.
  repeat case_bool_decide; subst; reflexivity.
Qed.

Lemma assign_fields_keeps (user_update : UserUpdate.t) (u : User.t) :
  User.id (assign_fields user_update u) = User.id u /\
  User.yandex_id (assign_fields user_update u) = User.yandex_id u /\
  User.access_token (assign_fields user_update u) = User.access_token u /\
  User.refresh_token (assign_fields user_update u) = User.refresh_token u /\
  User.token_expires (assign_fields user_update u) = User.token_expires u.
Proof.
  unfold assign_fields.
  destruct (UserUpdate.name user_update), (UserUpdate.is_active user_update),
    (UserUpdate.is_superuser user_update); repeat split.
Qed.

Lemma assign_fields_sets (user_update : UserUpdate.t) (u : User.t) :
  User.email (assign_fields user_update u) = UserUpdate.email user_update /\
  User.name (assign_fields user_update u)
  = match UserUpdate.name user_update with Some v => Some v | None => User.name u end /\
  User.is_active (assign_fields user_update u)
  = default (User.is_active u) (UserUpdate.is_active user_update) /\
  User.is_superuser (assign_fields user_update u)
  = default (User.is_superuser u) (UserUpdate.is_superuser user_update).
Proof.
  unfold assign_fields.
  destruct (UserUpdate.name user_update), (UserUpdate.is_active user_update),
    (UserUpdate.is_superuser user_update); repeat split.
Qed.

Lemma replace_row_same_field {B} (g : User.t -> B) (u u' : User.t) (l : list User.t) :
  User.id u' = User.id u -> g u' = g u -> u ∈ l -> NoDup (User.id <$> l) ->
  g <$> replace_row u' l = g <$> l.
Proof.
  intros Hid Hg Hu Hnd. unfold replace_row. rewrite <- list_fmap_compose.
  apply list_fmap_ext. intros i v Hv. cbn. case_bool_decide as Hc; [|reflexivity].
  rewrite Hid in Hc. assert (v = u) as ->; [|assumption].
  eapply NoDup_fmap_eq; eauto. eapply list_elem_of_lookup_2; eassumption.
Qed.

Lemma replace_row_fresh_field {B} (g : User.t -> B) (u u' : User.t) (l : list User.t) :
  User.id u' = User.id u -> u ∈ l -> NoDup (User.id <$> l) -> NoDup (g <$> l) ->
  (forall v, v ∈ l -> g v = g u' -> User.id v = User.id u) ->
  NoDup (g <$> replace_row u' l).
Proof.
  intros Hid Hu Hids Hg Hfree. apply NoDup_fmap_2_strong.
  - intros x y Hx Hy Hxy.
    apply (elem_of_replace_row u u' l Hid Hu) in Hx as [-> | [Hx Hxne]];
      apply (elem_of_replace_row u u' l Hid Hu) in Hy as [-> | [Hy Hyne]].
    + reflexivity.
    + exfalso. apply Hyne. apply Hfree; [assumption | congruence].
    + exfalso. apply Hxne. apply Hfree; [assumption | congruence].
    + eapply NoDup_fmap_eq; eauto.
  - apply (NoDup_fmap_1 User.id). rewrite replace_row_ids. assumption.
Qed.

(** X19. [update_user_me] writes the request body onto the caller's own
    row: the email always, and the name, [is_active] and [is_superuser]
    whenever the body gives them, so that a caller who sends
    [is_superuser = true] is a superuser afterwards. On a database that
    satisfies its constraints, for a caller whose row is stored and an
    email no other row holds, the call returns the updated row, the
    committed table has that row in place of the old one, and id,
    subject id and tokens are as before. *)
Theorem update_user_me_writes_body (user_update : UserUpdate.t) (current_user : User.t)
    (w : World) :
  constraints_ok (committed w) = true ->
  current_user ∈ users (committed w) ->
  (forall v, v ∈ users (committed w) -> User.email v = UserUpdate.email user_update ->
             User.id v = User.id current_user) ->
  let updated := assign_fields user_update current_user in
  exists w',
    update_user_me user_update current_user w = (Ok updated, w') /\
    users (committed w') = replace_row updated (users (committed w)) /\
    audio_files (committed w') = audio_files (committed w) /\
    User.email updated = UserUpdate.email user_update /\
    User.is_superuser updated
    = default (User.is_superuser current_user) (UserUpdate.is_superuser user_update) /\
    User.is_active updated
    = default (User.is_active current_user) (UserUpdate.is_active user_update) /\
    User.id updated = User.id current_user /\
    User.yandex_id updated = User.yandex_id current_user.
Proof.
  intros Hok Hcu Hfree. cbv zeta. apply constraints_ok_valid in Hok.
  pose proof Hok as [Hi He Hy Ha Ho].
  destruct (assign_fields_keeps user_update current_user) as (Kid & Ky & Kat & Krt & Kte).
  destruct (assign_fields_sets user_update current_user) as (Se & _ & Sa & Ss).
  set (updated := assign_fields user_update current_user) in *.
  assert (Hrows : (fun row => if bool_decide (User.id row = User.id current_user)
                              then AsyncSessionLocal.merge_user current_user updated row
                              else row) <$> users (committed w)
                  = replace_row updated (users (committed w))).
  { apply (fmap_replace_row _ current_user); auto.
    - intros v Hv. rewrite bool_decide_eq_false_2 by assumption. reflexivity.
    - rewrite bool_decide_eq_true_2 by reflexivity.
      apply merge_user_loaded; assumption. }
  assert (Hv : valid {| users := replace_row updated (users (committed w));
                        audio_files := audio_files (committed w) |}).
  { constructor; cbn [users audio_files].
    - rewrite replace_row_ids. assumption.
    - apply (replace_row_fresh_field User.email current_user); auto.
      intros v Hv Hev. apply Hfree; [assumption | congruence].
    - rewrite (replace_row_same_field User.yandex_id current_user); auto.
    - assumption.
    - rewrite replace_row_ids. assumption. }
  apply constraints_ok_valid in Hv.
  assert (Hex : existsb (fun u => bool_decide (User.id u = User.id current_user))
                  (replace_row updated (users (committed w))) = true).
  { apply existsb_exists. exists updated. split.
    - apply list_elem_of_In. apply (elem_of_replace_row current_user); auto.
    - apply bool_decide_eq_true_2. assumption. }
  unfold update_user_me, AsyncSessionLocal.async_with, AsyncSessionLocal.enter,
    AsyncSessionLocal.close, mbind, AsyncSessionLocal.add_modified,
    AsyncSessionLocal.commit_modified, session.commit, session.refresh_user,
    set_working, set_committed, log.
  cbv zeta. fold updated.
  cbn [working committed disk trace users audio_files].
  rewrite Hrows, Hex.
  cbn [working committed disk trace users audio_files]. rewrite Hv.
  cbn [working committed disk trace users audio_files].
  rewrite (find_replace_row current_user); [|assumption|assumption].
  eexists. split; [reflexivity|]. cbn [snd working committed disk trace users audio_files].
  repeat split; assumption.
Qed.
End UpdateUserMe.

Lemma update_user_me_writes_body_witness :
  exists w',
    UsersRoutes.update_user_me promote_me bob two_users
    = (Ok (UsersRoutes.assign_fields promote_me bob), w') /\
    User.is_superuser bob = false /\
    User.is_superuser (UsersRoutes.assign_fields promote_me bob) = true /\
    users (committed w') = [alice; UsersRoutes.assign_fields promote_me bob].
Proof.
  destruct (update_user_me_writes_body promote_me bob two_users)
    as (w' & Hrun & Hrows & _).
  - reflexivity.
  - vm_compute. right. left.
  - intros v Hv He. vm_compute in Hv.
    apply elem_of_cons in Hv as [-> | Hv]; [discriminate He|].
    apply list_elem_of_singleton in Hv. subst v. reflexivity.
  - exists w'. split; [exact Hrun|]. split; [reflexivity|]. split; [reflexivity|].
    rewrite Hrows. reflexivity.
Defined.

(** * The token expiry and the [Integer] column *)

Section ExpiryOverflow.
Import AuthService.
Variable provider : Request -> Reply.



End ExpiryOverflow.

